(** * Heat-spot dashboard: the date filter and the aggregation pipeline

    A shallow embedding of [filter_by_date] and [generate_heatmap] of
    [plot local/plot.py].

    Python names are references to objects, two lines of
    [generate_heatmap] assign a column of a frame in place, and
    [filter_by_date] is wrapped by [st.cache_data], whose cache outlives
    a call.  So frames live in a store, the cache is part of the state,
    and the two functions are written in a state and exception monad.
    The pandas / geopandas operations they call are modelled by their
    documented behaviour on the columns the program touches:
    [acq_date], [latitude], [longitude], [brightness] of the detection
    frame, [ADM1_TH] and [geometry] of the boundary frame.
    Floating-point cells are idealised as rationals, a cell being the
    rational that stands for it. *)

From Stdlib Require Import ZArith QArith Qfield Lia Lqa.
From stdpp Require Import base tactics option list sorting gmap strings.

Local Open Scope string_scope.
Local Open Scope list_scope.

(** ** Calendar dates

    [datetime.date] compares its (year, month, day) triples
    lexicographically. *)

Record date := mkdate { year : Z; month : Z; day : Z }.

Global Instance date_eq_dec : EqDecision date.
Proof. solve_decision. Defined.

Definition date_eqb (a b : date) : bool :=
  (year a =? year b)%Z && (month a =? month b)%Z && (day a =? day b)%Z.

Definition date_ltb (a b : date) : bool :=
  (year a <? year b)%Z
  || ((year a =? year b)%Z
      && ((month a <? month b)%Z
          || ((month a =? month b)%Z && (day a <? day b)%Z))).

Definition date_leb (a b : date) : bool := date_ltb a b || date_eqb a b.

(** The order the comparisons decide, as a relation. *)
Definition date_lt (a b : date) : Prop :=
  (year a < year b)%Z
  \/ (year a = year b /\ (month a < month b)%Z)
  \/ (year a = year b /\ month a = month b /\ (day a < day b)%Z).

Definition date_le (a b : date) : Prop := date_lt a b \/ a = b.

(** ** Detection frames

    A detection frame has the labels of its columns and its rows.  The
    labels form a set: a frame of this model has each label once, as a
    detection has one date, one latitude, one longitude and at most one
    brightness.  (pandas also builds frames with a repeated label, on
    which the column accesses of the program raise [ValueError]; they
    are not frames of this model.)  A row carries the four cells the
    program reads; a cell whose column label is not in [columns] does
    not exist in the frame and is never read (reading it raises
    [KeyError]). *)

Record Row := mkRow {
  acq_date : date;
  latitude : Q;
  longitude : Q;
  brightness : Q
}.

Global Instance Q_eq_dec : EqDecision Q.
Proof. solve_decision. Defined.

Global Instance Row_eq_dec : EqDecision Row.
Proof. solve_decision. Defined.

Record DataFrame := mkDataFrame {
  columns : gset string;
  rows : list Row
}.

Global Instance DataFrame_eq_dec : EqDecision DataFrame.
Proof. solve_decision. Defined.

Definition has_column (name : string) (df : DataFrame) : bool :=
  bool_decide (name ∈ columns df).

(** [df.empty] *)
Definition empty (df : DataFrame) : bool :=
  match rows df with [] => true | _ => false end.

(** Exceptions and results: a missing column, and an object that is
    not of the kind the operation is for. *)
Inductive exn :=
| KeyError (key : string)
| TypeError.

Inductive result (A : Type) :=
| Ok (a : A)
| Raise (e : exn).
Arguments Ok {A} a.
Arguments Raise {A} e.

(** [df['acq_date']]: the date column. *)
Definition getitem_acq_date (df : DataFrame) : result (list date) :=
  if has_column "acq_date" df then Ok (acq_date <$> rows df)
  else Raise (KeyError "acq_date").

(** The cells of a row under the names of the numeric columns. *)
Definition numeric (name : string) : option (Row -> Q) :=
  if String.eqb name "latitude" then Some latitude
  else if String.eqb name "longitude" then Some longitude
  else if String.eqb name "brightness" then Some brightness
  else None.

(** [df[name]] for a numeric column.  A frame may list further columns;
    the program reads none of them and the rows carry no cells for
    them. *)
Definition getitem (df : DataFrame) (name : string) : result (list Q) :=
  if has_column name df then
    match numeric name with
    | Some f => Ok (f <$> rows df)
    | None => Raise TypeError
    end
  else Raise (KeyError name).

(** Element-wise comparisons of a date column with a scalar. *)
Definition series_ge (s : list date) (d : date) : list bool :=
  (fun x => date_leb d x) <$> s.
Definition series_le (s : list date) (d : date) : list bool :=
  (fun x => date_leb x d) <$> s.
Definition series_eq (s : list date) (d : date) : list bool :=
  (fun x => date_eqb x d) <$> s.
(** [m1 & m2] *)
Definition series_and (m1 m2 : list bool) : list bool := zip_with andb m1 m2.

(** Boolean indexing keeps the rows whose mask entry is [True]. *)
Fixpoint select {A : Type} (l : list A) (mask : list bool) : list A :=
  match l, mask with
  | x :: l', b :: mask' => if b then x :: select l' mask' else select l' mask'
  | _, _ => []
  end.

(** [df[mask]]: a new frame with the same columns. *)
Definition boolean_index (df : DataFrame) (mask : list bool) : DataFrame :=
  {| columns := columns df; rows := select (rows df) mask |}.

(** [df.get(name, default)]: the column, or the default when the frame
    has no such column. *)
Inductive column_or_scalar :=
| Column (s : list Q)
| Scalar (q : Q).

Definition get (df : DataFrame) (name : string) (default : Q) : column_or_scalar :=
  match getitem df name with
  | Ok s => Column s
  | Raise _ => Scalar default
  end.

Definition set_brightness (r : Row) (b : Q) : Row :=
  {| acq_date := acq_date r; latitude := latitude r;
     longitude := longitude r; brightness := b |}.

(** [df['brightness'] = v]: every row gets its new cell, and the column
    name is added when the frame did not have it. *)
Definition setitem_brightness (df : DataFrame) (v : column_or_scalar) : DataFrame :=
  {| columns := if has_column "brightness" df then columns df
                else columns df ∪ {["brightness"]};
     rows := match v with
             | Column s => zip_with set_brightness (rows df) s
             | Scalar q => (fun r => set_brightness r q) <$> rows df
             end |}.

(** [df[['latitude', 'longitude', 'brightness']].values.tolist()] *)
Definition values_tolist (df : DataFrame) : result (list (Q * Q * Q)) :=
  match getitem df "latitude", getitem df "longitude", getitem df "brightness" with
  | Ok la, Ok lo, Ok br => Ok (zip (zip la lo) br)
  | Raise e, _, _ => Raise e
  | _, Raise e, _ => Raise e
  | _, _, Raise e => Raise e
  end.

(** ** Geometry and the boundary frame

    The point-in-polygon predicate belongs to the geometry library; the
    program only calls it.  A geometry type is anything with a [within]
    test. *)

Record Point := mkPoint { px : Q; py : Q }.

Class Within (G : Type) := within : Point -> G -> bool.

(** An axis-parallel open rectangle, for concrete boundary layers. *)
Record Box := mkBox { xmin : Q; ymin : Q; xmax : Q; ymax : Q }.

Definition Qlt_bool (a b : Q) : bool := negb (Qle_bool b a).

Global Instance box_within : Within Box := fun p b =>
  Qlt_bool (xmin b) (px p) && Qlt_bool (px p) (xmax b)
  && Qlt_bool (ymin b) (py p) && Qlt_bool (py p) (ymax b).

(** ** Counting, sorting, merging: the frame operations of the pipeline *)

(** Keys in order of first appearance with their number of occurrences;
    missing values are dropped. *)
Fixpoint bump (k : string) (acc : list (string * Z)) : list (string * Z) :=
  match acc with
  | [] => [(k, 1%Z)]
  | (k', c) :: acc' =>
      if decide (k = k') then (k', (c + 1)%Z) :: acc' else (k', c) :: bump k acc'
  end.

Definition tally (col : list (option string)) : list (string * Z) :=
  foldl (fun acc o => match o with Some k => bump k acc | None => acc end) [] col.

(** Counts do not increase along the list. *)
Definition sorted_desc (t : list (string * Z)) : Prop :=
  StronglySorted (fun x y => (y.2 <= x.2)%Z) t.

(** Sorting by the count column, largest first: the sort of
    [sort_values(..., ascending=False)] and the one inside
    [value_counts].  Their default kind promises no order among rows
    with equal counts, so the sort is any function that returns the rows
    it is given, rearranged with the counts in non-increasing order. *)
Class SortValues := {
  sort_values_desc : list (string * Z) -> list (string * Z);
  sort_values_desc_Permutation l : sort_values_desc l ≡ₚ l;
  sort_values_desc_sorted l : sorted_desc (sort_values_desc l)
}.

(** One such sort, for concrete sessions: insertion before the first
    row whose count is not larger. *)
Fixpoint insert_desc (x : string * Z) (l : list (string * Z)) : list (string * Z) :=
  match l with
  | [] => [x]
  | y :: l' => if (x.2 <? y.2)%Z then y :: insert_desc x l' else x :: y :: l'
  end.

Fixpoint insertion_sort_desc (l : list (string * Z)) : list (string * Z) :=
  match l with
  | [] => []
  | x :: l' => insert_desc x (insertion_sort_desc l')
  end.

Global Instance insertion_sort : SortValues.
Proof.
  assert (Hperm : forall x l, insert_desc x l ≡ₚ x :: l).
  { intros x l. induction l as [| y l IH]; simpl; [reflexivity |].
    destruct (x.2 <? y.2)%Z; [| reflexivity].
    rewrite IH. apply Permutation_swap. }
  refine {| sort_values_desc := insertion_sort_desc |}.
  - intros l. induction l as [| x l IH]; simpl; [reflexivity |].
    rewrite Hperm, IH. reflexivity.
  - intros l. unfold sorted_desc.
    induction l as [| x l IH]; simpl; [apply SSorted_nil |].
    revert IH. generalize (insertion_sort_desc l). clear l.
    intros l Hs. induction l as [| y l IH]; simpl.
    + apply StronglySorted_cons. split; [apply Forall_nil_2 | exact Hs].
    + apply StronglySorted_cons in Hs. destruct Hs as [Hy Hs].
      destruct (x.2 <? y.2)%Z eqn:E.
      * apply Z.ltb_lt in E. apply StronglySorted_cons. split; [| apply IH, Hs].
        rewrite Hperm. apply Forall_cons. split; [lia | exact Hy].
      * apply Z.ltb_ge in E. apply StronglySorted_cons. split.
        -- apply Forall_cons. split; [exact E |].
           eapply Forall_impl; [exact Hy |]. simpl. intros z Hz. lia.
        -- apply StronglySorted_cons. split; assumption.
Defined.

(** ** The sample of a large frame

    [st.cache_data] keys a frame by its shape, its column labels and
    its rows, but a frame of [PANDAS_ROWS_LARGE] rows or more by the
    [PANDAS_SAMPLE_SIZE] rows that [df.sample(n=10000, random_state=0)]
    draws.  The positions drawn depend on the number of rows alone; they
    come from the random generator of the library and are a parameter
    here. *)
Class Sampler := sample_positions : nat -> list nat.

Definition PANDAS_ROWS_LARGE : Z := 50000.
Definition PANDAS_SAMPLE_SIZE : Z := 10000.

(** A sampler draws no more than the sample size. *)
Definition sample_size_ok (S : Sampler) : Prop :=
  forall n, (Z.of_nat (length (sample_positions n)) <= PANDAS_SAMPLE_SIZE)%Z.

(** The sampler of the concrete sessions, whose frames are small and
    never sampled: the first rows. *)
Global Instance first_rows : Sampler := fun _ => seq 0 (Z.to_nat PANDAS_SAMPLE_SIZE).

(** The rows the key of a frame covers. *)
Definition hashed_rows `{Sampler} (rs : list Row) : list (option Row) :=
  if (PANDAS_ROWS_LARGE <=? Z.of_nat (length rs))%Z
  then (fun i => rs !! i) <$> sample_positions (length rs)
  else Some <$> rs.

Definition frame_key `{Sampler} (df : DataFrame) : nat * gset string * list (option Row) :=
  (length (rows df), columns df, hashed_rows (rows df)).

(** The key of a call: every argument is hashed, the dates the mode
    does not use included. *)
Definition call_key `{Sampler} (df : DataFrame) (mode : string)
    (date_start date_end date_exact : date) :=
  (frame_key df, mode, date_start, date_end, date_exact).

(** An entry of the cache, held as the arguments of the call that
    stored it: they determine the frame that was stored. *)
Record cache_entry := mkEntry {
  origin : DataFrame;
  entry_mode : string;
  entry_start : date;
  entry_end : date;
  entry_exact : date
}.

Definition entry_key `{Sampler} (e : cache_entry) :=
  call_key (origin e) (entry_mode e) (entry_start e) (entry_end e) (entry_exact e).

(** The entry a key is answered from: the first stored under it. *)
Definition cache_get `{Sampler} (df : DataFrame) (mode : string)
    (date_start date_end date_exact : date) (cache : list cache_entry)
  : option cache_entry :=
  head (filter (fun e => entry_key e = call_key df mode date_start date_end date_exact)
          cache).

(** Lines 37 to 41, the function that is wrapped: the rows of a frame
    that meet the criteria, as a new frame. *)
Definition filter_rows (df : DataFrame) (mode : string)
    (date_start date_end date_exact : date) : result DataFrame :=
  match getitem_acq_date df with
  | Ok acq =>
      if String.eqb mode "range" then
        Ok (boolean_index df
              (series_and (series_ge acq date_start) (series_le acq date_end)))
      else
        Ok (boolean_index df (series_eq acq date_exact))
  | Raise e => Raise e
  end.

(** The frame an entry holds. *)
Definition cached_value (e : cache_entry) : result DataFrame :=
  filter_rows (origin e) (entry_mode e) (entry_start e) (entry_end e) (entry_exact e).

Section Pipeline.

Context {G : Type} {W : Within G} {SV : SortValues} {SP : Sampler}.

(** [s.value_counts()]: counts of the non-missing values, most frequent
    first.  [reset_index] and the renaming of the two columns leave this
    list of (name, count) rows as it is. *)
Definition value_counts (col : list (option string)) : list (string * Z) :=
  sort_values_desc (tally col).

Record Region := mkRegion { ADM1_TH : string; geometry : G }.

(** A row of the merged boundary frame: the region and its
    [heat_spot_count] cell, [None] for a missing value. *)
Record CountedRegion := mkCounted {
  region : Region;
  heat_spot_count : option Z
}.

(** A row of the spatial join: the index of the point in the left
    frame, the point, and the matching region's index and name, missing
    when no region matches. *)
Record JoinedRow := mkJoined {
  left_index : nat;
  point : Point;
  index_right : option nat;
  joined_ADM1_TH : option string
}.

(** The regions a point is within, with their positions, in the order
    of the boundary frame. *)
Definition matches_from (j : nat) (p : Point) (gdf : list Region) : list (nat * Region) :=
  filter (fun jr => within p (geometry jr.2) = true) (zip (seq j (length gdf)) gdf).

(** [gpd.sjoin(heat_points, gdf, how="left", predicate="within")]: one
    row per (point, region) pair with the point within the region, in
    the order of the points and then of the regions; a point within no
    region keeps one row with missing region columns. *)
Fixpoint sjoin_from (i : nat) (heat_points : list Point) (gdf : list Region) : list JoinedRow :=
  match heat_points with
  | [] => []
  | p :: ps =>
      match matches_from 0 p gdf with
      | [] => [mkJoined i p None None]
      | ms => (fun jr => mkJoined i p (Some jr.1) (Some (ADM1_TH jr.2))) <$> ms
      end ++ sjoin_from (S i) ps gdf
  end.

Definition sjoin (heat_points : list Point) (gdf : list Region) : list JoinedRow :=
  sjoin_from 0 heat_points gdf.

(** [gdf.merge(province_counts, on='ADM1_TH', how='left')]: every row
    of the left frame, in its order, once per row of the right frame
    with the same key, and once with a missing count when there is
    none. *)
Definition merge (gdf : list Region) (province_counts : list (string * Z)) : list CountedRegion :=
  r ← gdf;
  match filter (fun kc => kc.1 = ADM1_TH r) province_counts with
  | [] => [mkCounted r None]
  | ms => (fun kc => mkCounted r (Some kc.2)) <$> ms
  end.

(** [gdf['heat_spot_count'].fillna(0).astype(int)] *)
Definition fillna_astype_int (m : list CountedRegion) : list CountedRegion :=
  (fun c => mkCounted (region c) (Some (default 0%Z (heat_spot_count c)))) <$> m.

(** ** The map and its layers *)

Inductive layer :=
| GeoJson (data : list CountedRegion)
| HeatMap (data : list (Q * Q * Q)).

Record Map := mkMap {
  location : Q * Q;
  zoom_start : Z;
  layers : list layer
}.

(** [folium.Map(location=..., zoom_start=...)]: a map without layers. *)
Definition folium_Map (location : Q * Q) (zoom_start : Z) : Map :=
  {| location := location; zoom_start := zoom_start; layers := [] |}.

(** [l.add_to(m)]: the layer becomes the last child of the map. *)
Definition add_to (l : layer) (m : Map) : Map :=
  {| location := location m; zoom_start := zoom_start m; layers := layers m ++ [l] |}.

(** The rows of the province layer and the points of the heat layer of
    a map. *)
Definition province_layer (m : Map) : list CountedRegion :=
  l ← layers m; match l with GeoJson d => d | HeatMap _ => [] end.

Definition heat_layer (m : Map) : list (Q * Q * Q) :=
  l ← layers m; match l with HeatMap d => d | GeoJson _ => [] end.

(** ** Normalisation of the intensity *)

(** Python's two-argument [min] and [max] keep their first argument
    unless the second is strictly smaller (larger). *)
Definition py_min (a b : Q) : Q := if Qlt_bool b a then b else a.
Definition py_max (a b : Q) : Q := if Qlt_bool a b then b else a.

Definition min_b : Q := 250.
Definition max_b : Q := 400.

Definition normalize (heat_data : list (Q * Q * Q)) : list (Q * Q * Q) :=
  (fun '(lat, lon, b) =>
     let b := py_max min_b (py_min b max_b) in
     let weight := ((b - min_b) / (max_b - min_b))%Q in
     (lat, lon, weight)) <$> heat_data.

(** ** The store and the monad *)

Definition loc := nat.

Inductive object :=
| DF (df : DataFrame)
| GDF (gdf : list Region)
| Merged (gdf : list CountedRegion).

(** The state: the objects by location, and the cache of
    [filter_by_date], oldest entry first. *)
Record state := mkState {
  heap : gmap loc object;
  cache : list cache_entry
}.

Global Instance state_lookup : Lookup loc object state := fun l s => heap s !! l.
Global Instance state_insert : Insert loc object state :=
  fun l o s => {| heap := <[l := o]> (heap s); cache := cache s |}.
Global Instance state_dom : Dom state (gset loc) := fun s => dom (heap s).
Global Instance state_empty : Empty state := {| heap := ∅; cache := [] |}.

Definition M (A : Type) : Type := state -> result (A * state).

Definition ret {A} (a : A) : M A := fun s => Ok (a, s).

Definition bind {A B} (c : M A) (k : A -> M B) : M B :=
  fun s => match c s with
           | Ok (a, s') => k a s'
           | Raise e => Raise e
           end.

Definition lift {A} (r : result A) : M A :=
  fun s => match r with Ok a => Ok (a, s) | Raise e => Raise e end.

Notation "x <- c ;; k" := (bind c (fun x => k))
  (at level 100, c at next level, right associativity).
Notation "c ;;; k" := (bind c (fun _ => k))
  (at level 100, right associativity).

Definition read_df (l : loc) : M DataFrame :=
  fun s => match s !! l with Some (DF d) => Ok (d, s) | _ => Raise TypeError end.

Definition read_gdf (l : loc) : M (list Region) :=
  fun s => match s !! l with Some (GDF g) => Ok (g, s) | _ => Raise TypeError end.

Definition read_merged (l : loc) : M (list CountedRegion) :=
  fun s => match s !! l with Some (Merged g) => Ok (g, s) | _ => Raise TypeError end.

(** A new object at a location the store does not use. *)
Definition alloc (o : object) : M loc :=
  fun s => let l := fresh (dom s) in Ok (l, <[l := o]> s).

(** Assignment into the object at a location. *)
Definition write (l : loc) (o : object) : M unit :=
  fun s => Ok (tt, <[l := o]> s).

(** The cache, and a new entry at its end. *)
Definition get_cache : M (list cache_entry) := fun s => Ok (cache s, s).

Definition cache_put (e : cache_entry) : M unit :=
  fun s => Ok (tt, {| heap := heap s; cache := cache s ++ [e] |}).

(** ** The two functions *)

(** Line 36 around lines 37 to 41.  A call whose key has an entry gets
    a copy of the frame stored there; any other call runs the function,
    stores its frame under the key and gets that frame.  An exception
    of the function is passed on and nothing is stored. *)
Definition filter_by_date (df : loc) (mode : string)
    (date_start date_end date_exact : date) : M loc :=
  d <- read_df df ;;
  c <- get_cache ;;
  match cache_get d mode date_start date_end date_exact c with
  | Some e =>
      frame <- lift (cached_value e) ;;
      alloc (DF frame)
  | None =>
      frame <- lift (filter_rows d mode date_start date_end date_exact) ;;
      cache_put (mkEntry d mode date_start date_end date_exact) ;;;
      alloc (DF frame)
  end.

Definition generate_heatmap (filter_mode : string)
    (date_start date_end date_exact : date) (gdf df_all : loc)
  : M (Map * list (string * Z)) :=
  df_filtered <- filter_by_date df_all filter_mode date_start date_end date_exact ;;
  (* Prepare heat data *)
  d <- read_df df_filtered ;;
  heat_data <-
    (if has_column "latitude" d && has_column "longitude" d && negb (empty d) then
       write df_filtered (DF (setitem_brightness d (get d "brightness" 1))) ;;;
       d' <- read_df df_filtered ;;
       lift (values_tolist d')
     else ret []) ;;
  (* Folium map init *)
  let mymap := folium_Map (13.7367%Q, 100.5231%Q) 6 in
  (* GeoDataFrame of fire points *)
  let heat_points := (fun '(lat, lon, _) => mkPoint lon lat) <$> heat_data in
  (* Spatial join to provinces *)
  g <- read_gdf gdf ;;
  let joined := sjoin heat_points g in
  let province_counts := value_counts (joined_ADM1_TH <$> joined) in
  (* Merge to shapefile: the name gdf now refers to the merged frame *)
  gdf <- alloc (Merged (merge g province_counts)) ;;
  m <- read_merged gdf ;;
  write gdf (Merged (fillna_astype_int m)) ;;;
  (* Draw province layer *)
  m <- read_merged gdf ;;
  let mymap := add_to (GeoJson m) mymap in
  (* Normalize heat *)
  let normalized := normalize heat_data in
  (* HeatMap layer *)
  let mymap := match normalized with
               | [] => mymap
               | _ => add_to (HeatMap normalized) mymap
               end in
  ret (mymap, sort_values_desc province_counts).

End Pipeline.

Arguments Region G : clear implicits.
Arguments CountedRegion G : clear implicits.
Arguments layer G : clear implicits.
Arguments Map G : clear implicits.
Arguments object G : clear implicits.
Arguments state G : clear implicits.
Arguments M G A : clear implicits.

Notation "x <- c ;; k" := (bind c (fun x => k))
  (at level 100, c at next level, right associativity).
Notation "c ;;; k" := (bind c (fun _ => k))
  (at level 100, right associativity).

(** ** Notions used to state the properties *)

Global Instance date_lt_dec (a b : date) : Decision (date_lt a b).
Proof. unfold date_lt. apply _. Defined.

Global Instance date_le_dec (a b : date) : Decision (date_le a b).
Proof. unfold date_le. apply _. Defined.

(** Bounding a value to the interval from [lo] to [hi]. *)
Definition clamp (b lo hi : Q) : Q :=
  if Qlt_le_dec b lo then lo else if Qlt_le_dec hi b then hi else b.

(** The intensity of a detection of a frame: its brightness, or 1 when
    the frame has no such column. *)
Definition intensity (df : DataFrame) (r : Row) : Q :=
  if has_column "brightness" df then brightness r else 1.

(** The detections that reach the spatial join and the heat layer:
    all rows of a frame with both coordinate columns, none otherwise. *)
Definition heat_data_of (df : DataFrame) : list (Q * Q * Q) :=
  if has_column "latitude" df && has_column "longitude" df then
    (fun r => (latitude r, longitude r, intensity df r)) <$> rows df
  else [].

Definition heat_points_of (df : DataFrame) : list Point :=
  (fun '(lat, lon, _) => mkPoint lon lat) <$> heat_data_of df.

(** The sum of the count column. *)
Definition total (t : list (string * Z)) : Z := foldr Z.add 0%Z (t.*2).

(** The detection at position [i] is assigned a region when some row of
    the join carries its index and a region name. *)
Definition assigned (joined : list JoinedRow) (i : nat) : Prop :=
  Exists (fun j => left_index j = i /\ is_Some (joined_ADM1_TH j)) joined.

Global Instance assigned_dec joined i : Decision (assigned joined i).
Proof. unfold assigned. apply _. Defined.

(** The number of detections, out of [n], assigned to no region. *)
Definition unmatched_count (joined : list JoinedRow) (n : nat) : nat :=
  length (filter (fun i => ~ assigned joined i) (seq 0 n)).

(** No point is within two regions of the boundary frame. *)
Definition pairwise_disjoint {G} `{Within G} (gdf : list (Region G)) : Prop :=
  forall p i j ri rj,
    gdf !! i = Some ri -> gdf !! j = Some rj -> i <> j ->
    within p (geometry ri) = true -> within p (geometry rj) = true -> False.

(** The count recorded for a key in a list of (name, count) rows, 0
    when the key has no row. *)
Fixpoint lookup_count (k : string) (t : list (string * Z)) : Z :=
  match t with
  | [] => 0%Z
  | (k', c) :: t' => if decide (k = k') then c else lookup_count k t'
  end.

(** The number of rows of a name column that carry the name [k]. *)
Definition occurrences (k : string) (col : list (option string)) : nat :=
  length (filter (fun o => o = Some k) col).

(** The date mask of a call of [filter_by_date], by mode. *)
Definition date_mask (mode : string) (date_start date_end date_exact : date)
    (acq : list date) : list bool :=
  if String.eqb mode "range"
  then series_and (series_ge acq date_start) (series_le acq date_end)
  else series_eq acq date_exact.

(** The spatial join of the points of a filtered frame with the
    boundary frame, and its name column. *)
Definition joined_of {G} `{Within G} (df : DataFrame) (gdf : list (Region G)) : list JoinedRow :=
  sjoin (heat_points_of df) gdf.

Definition joined_names {G} `{Within G} (df : DataFrame) (gdf : list (Region G))
  : list (option string) :=
  joined_ADM1_TH <$> joined_of df gdf.

(** The map drawn from the merged frame [m] and the heat data: the
    province layer, and the heat layer when there is a point to draw. *)
Definition drawn {G} (m : list (CountedRegion G)) (heat_data : list (Q * Q * Q)) : Map G :=
  let mymap := add_to (GeoJson m) (folium_Map (13.7367%Q, 100.5231%Q) 6) in
  match normalize heat_data with
  | [] => mymap
  | _ => add_to (HeatMap (normalize heat_data)) mymap
  end.

(** The regions a point is within, in the order of the boundary frame. *)
Definition matching {G} `{Within G} (p : Point) (gdf : list (Region G)) : list (Region G) :=
  filter (fun r => within p (geometry r) = true) gdf.

(** The name cells of the rows a point contributes to the join. *)
Definition names_of_point {G} `{Within G} (p : Point) (g : list (Region G))
  : list (option string) :=
  match matching p g with
  | [] => [None]
  | ms => (fun r => Some (ADM1_TH r)) <$> ms
  end.


(** Every region of the boundary frame has exactly one row in a table
    of (name, count) rows. *)
Definition every_region_once {G} (gdf : list (Region G)) (t : list (string * Z)) : Prop :=
  forall r, r ∈ gdf -> length (filter (fun kc => kc.1 = ADM1_TH r) t) = 1%nat.

(** Every entry of the cache under the key of a call was stored for
    the very frame of the call: the call is not answered with the rows
    of another frame. *)
Definition cache_agrees {G} `{Sampler} (s : state G) (df : DataFrame) (mode : string)
    (date_start date_end date_exact : date) : Prop :=
  forall e, e ∈ cache s ->
    entry_key e = call_key df mode date_start date_end date_exact -> origin e = df.

(** ** A concrete session

    Two provinces, as rectangles, and four detections: two within the
    first province and one outside both on 10 April 2025, one within
    the second province the day before. *)

Definition ex_regions : list (Region Box) :=
  [mkRegion "A" (mkBox 0 0 1 1); mkRegion "B" (mkBox 2 2 3 3)].

Definition ex_day : date := mkdate 2025 4 10.
Definition ex_eve : date := mkdate 2025 4 9.
Definition ex_morrow : date := mkdate 2025 4 11.

Definition ex_columns : gset string :=
  list_to_set ["latitude"; "longitude"; "brightness"; "acq_date"].

Definition ex_rows_day : list Row :=
  [mkRow ex_day (1 # 2) (1 # 2) 300; mkRow ex_day (3 # 5) (3 # 5) 400; mkRow ex_day 5 5 250].

Definition ex_frame : DataFrame :=
  {| columns := ex_columns; rows := ex_rows_day ++ [mkRow ex_eve (5 # 2) (5 # 2) 250] |}.

(** The boundary frame at location 0, the detection frame at 1. *)
Definition ex_store : state Box :=
  <[0%nat := GDF ex_regions]> (<[1%nat := DF ex_frame]> ∅).

Definition ex_filtered : DataFrame := {| columns := ex_columns; rows := ex_rows_day |}.
Definition ex_nothing : DataFrame := {| columns := ex_columns; rows := [] |}.

(** The same detections in a frame without a brightness column. *)
Definition ex_plain_columns : gset string :=
  list_to_set ["latitude"; "longitude"; "acq_date"].
Definition ex_plain_frame : DataFrame :=
  {| columns := ex_plain_columns; rows := rows ex_frame |}.
Definition ex_plain_store : state Box :=
  <[0%nat := GDF ex_regions]> (<[1%nat := DF ex_plain_frame]> ∅).
Definition ex_plain_filtered : DataFrame :=
  {| columns := ex_plain_columns; rows := ex_rows_day |}.

(** One detection in each province on the same day, the one in the
    second province first. *)
Definition ex_tie_frame : DataFrame :=
  {| columns := ex_columns;
     rows := [mkRow ex_day (5 # 2) (5 # 2) 300; mkRow ex_day (1 # 2) (1 # 2) 300] |}.
Definition ex_tie_store : state Box :=
  <[0%nat := GDF ex_regions]> (<[1%nat := DF ex_tie_frame]> ∅).


(** The states after the date filter has returned its frame, at the
    first unused location, and stored its entry. *)
Definition ex_store_day : state Box :=
  {| heap := <[2%nat := DF ex_filtered]> (heap ex_store);
     cache := [mkEntry ex_frame "exact" ex_eve ex_day ex_day] |}.
Definition ex_store_morrow : state Box :=
  {| heap := <[2%nat := DF ex_nothing]> (heap ex_store);
     cache := [mkEntry ex_frame "exact" ex_eve ex_day ex_morrow] |}.
Definition ex_plain_store_day : state Box :=
  {| heap := <[2%nat := DF ex_plain_filtered]> (heap ex_plain_store);
     cache := [mkEntry ex_plain_frame "range" ex_day ex_morrow ex_day] |}.


(** A frame without the date column, and a copy of the detection frame
    with other brightness cells, in stores of their own. *)
Definition ex_undated_frame : DataFrame :=
  {| columns := list_to_set ["latitude"; "longitude"; "brightness"];
     rows := rows ex_frame |}.
Definition ex_undated_store : state Box :=
  <[0%nat := GDF ex_regions]> (<[1%nat := DF ex_undated_frame]> ∅).

Definition ex_dim_frame : DataFrame :=
  {| columns := ex_columns;
     rows := (fun r => set_brightness r 260) <$> rows ex_frame |}.
Definition ex_two_store : state Box :=
  <[0%nat := GDF ex_regions]> (<[1%nat := DF ex_frame]> (<[2%nat := DF ex_dim_frame]> ∅)).

Definition ex_heat_data : list (Q * Q * Q) := [(1, 1, 300); (2, 2, 350)]%Q.

(** ** Notions for the further properties *)

(** A row meets the criteria of a call of [filter_by_date]. *)
Definition in_criteria (mode : string) (date_start date_end date_exact : date)
    (r : Row) : Prop :=
  if String.eqb mode "range"
  then date_le date_start (acq_date r) /\ date_le (acq_date r) date_end
  else acq_date r = date_exact.

Global Instance in_criteria_dec mode ds de dx r : Decision (in_criteria mode ds de dx r).
Proof. unfold in_criteria. destruct (String.eqb mode "range"); apply _. Defined.

(** The point built for a detection: [Point(lon, lat)]. *)
Definition point_of (r : Row) : Point := mkPoint (longitude r) (latitude r).

(** Two rows that differ at most in their brightness cell. *)
Definition same_but_brightness (r r' : Row) : Prop :=
  acq_date r = acq_date r' /\ latitude r = latitude r' /\ longitude r = longitude r'.

(** The number of (point, region) pairs with the point within the
    region. *)
Definition containments {G} `{Within G} (pts : list Point) (gdf : list (Region G)) : nat :=
  sum_list ((fun p => length (matching p gdf)) <$> pts).

(** The weight lines 103 and 104 compute for an intensity. *)
Definition weight_of (b : Q) : Q :=
  ((py_max min_b (py_min b max_b) - min_b) / (max_b - min_b))%Q.

(** ** Two large frames with one key

    A frame of [PANDAS_ROWS_LARGE] rows dated on the eve, the same frame
    with the row at position [p] dated on the day. *)
Definition large : nat := Z.to_nat PANDAS_ROWS_LARGE.

Definition stale_row : Row := mkRow ex_eve 0 0 0.
Definition new_row : Row := mkRow ex_day 0 0 0.

Definition stale_frame : DataFrame :=
  {| columns := ex_columns; rows := replicate large stale_row |}.

Definition new_frame (p : nat) : DataFrame :=
  {| columns := ex_columns; rows := <[p := new_row]> (replicate large stale_row) |}.

(** The two frames at locations 1 and 2, before any call. *)
Definition two_frames {G} (p : nat) : state G :=
  <[1%nat := DF stale_frame]> (<[2%nat := DF (new_frame p)]> ∅).

(** The frame of the rows of a frame that meet the criteria of a call
    of [filter_by_date]. *)
Definition filtered (d : DataFrame) (mode : string) (date_start date_end date_exact : date)
  : DataFrame :=
  {| columns := columns d; rows := filter (in_criteria mode date_start date_end date_exact) (rows d) |}.

(** * Properties *)

(** ** Dates *)

Lemma date_eqb_eq a b : date_eqb a b = true <-> a = b.
Proof.
  unfold date_eqb. destruct a as [y m d], b as [y' m' d']; simpl.
  rewrite !andb_true_iff, !Z.eqb_eq. split.
  - intros [[-> ->] ->]. reflexivity.
  - intros [= -> -> ->]. auto.
Qed.

Lemma date_ltb_lt a b : date_ltb a b = true <-> date_lt a b.
Proof.
  unfold date_ltb, date_lt.
  rewrite !orb_true_iff, !andb_true_iff, !orb_true_iff, !andb_true_iff,
    !Z.ltb_lt, !Z.eqb_eq.
  tauto.
Qed.

Lemma date_leb_le a b : date_leb a b = true <-> date_le a b.
Proof.
  unfold date_leb, date_le.
  rewrite orb_true_iff, date_ltb_lt, date_eqb_eq. tauto.
Qed.

Lemma date_lt_asym a b : date_lt a b -> date_lt b a -> False.
Proof. unfold date_lt. lia. Qed.

Lemma date_le_antisym a b : date_le a b -> date_le b a -> a = b.
Proof.
  intros [Hab | ->] [Hba | Heq]; try reflexivity; try (symmetry; assumption).
  destruct (date_lt_asym _ _ Hab Hba).
Qed.

(** Lying between [d] and [d] is being [d]. *)
Lemma date_leb_both x d : date_leb d x && date_leb x d = date_eqb x d.
Proof.
  apply eq_true_iff_eq.
  rewrite andb_true_iff, !date_leb_le, date_eqb_eq. split.
  - intros [H1 H2]. apply date_le_antisym; assumption.
  - intros ->. split; right; reflexivity.
Qed.

(** ** Boolean indexing is filtering *)

Lemma select_fmap {A} (f : A -> bool) (l : list A) :
  select l (f <$> l) = filter (fun x => f x = true) l.
Proof.
  induction l as [| x l IH]; simpl; [reflexivity |].
  rewrite filter_cons. destruct (decide (f x = true)) as [E | E].
  - rewrite E. f_equal. exact IH.
  - apply not_true_is_false in E. rewrite E. exact IH.
Qed.

Lemma series_and_fmap {A} (f g : A -> bool) (l : list A) :
  series_and (f <$> l) (g <$> l) = (fun x => f x && g x) <$> l.
Proof.
  unfold series_and. induction l as [| x l IH]; simpl; [reflexivity |].
  f_equal. exact IH.
Qed.

Lemma range_mask (s : list date) (lo hi : date) :
  series_and (series_ge s lo) (series_le s hi)
  = (fun x => date_leb lo x && date_leb x hi) <$> s.
Proof. unfold series_ge, series_le. apply series_and_fmap. Qed.

Lemma range_mask_point (s : list date) (d : date) :
  series_and (series_ge s d) (series_le s d) = series_eq s d.
Proof.
  rewrite range_mask. unfold series_eq.
  apply list_fmap_ext. intros _ x _. apply date_leb_both.
Qed.

Lemma select_exact (l : list Row) (d : date) :
  select l (series_eq (acq_date <$> l) d) = filter (fun r => acq_date r = d) l.
Proof.
  unfold series_eq. rewrite <- list_fmap_compose, select_fmap.
  apply list_filter_iff. intros r. simpl. apply date_eqb_eq.
Qed.

Lemma select_range (l : list Row) (lo hi : date) :
  select l (series_and (series_ge (acq_date <$> l) lo) (series_le (acq_date <$> l) hi))
  = filter (fun r => date_le lo (acq_date r) /\ date_le (acq_date r) hi) l.
Proof.
  rewrite range_mask, <- list_fmap_compose, select_fmap.
  apply list_filter_iff. intros r. simpl.
  rewrite andb_true_iff, !date_leb_le. reflexivity.
Qed.

(** ** Counting by key *)

Lemma tally_snoc col o :
  tally (col ++ [o]) = match o with Some k => bump k (tally col) | None => tally col end.
Proof. unfold tally. rewrite foldl_snoc. reflexivity. Qed.

Lemma bump_keys k acc :
  (bump k acc).*1 = if decide (k ∈ acc.*1) then acc.*1 else acc.*1 ++ [k].
Proof.
  induction acc as [| [k' c] acc IH].
  - rewrite decide_False by (rewrite fmap_nil; apply not_elem_of_nil). reflexivity.
  - cbn [bump]. rewrite (fmap_cons fst (k', c)). cbn [fst].
    destruct (decide (k = k')) as [-> | Hne].
    + rewrite decide_True by apply list_elem_of_here. reflexivity.
    + rewrite fmap_cons, IH. cbn [fst].
      destruct (decide (k ∈ acc.*1)) as [Hin | Hnin].
      * rewrite decide_True by (apply list_elem_of_further; exact Hin). reflexivity.
      * rewrite decide_False; [reflexivity |].
        rewrite elem_of_cons. tauto.
Qed.

Lemma lookup_count_bump k k' acc :
  lookup_count k (bump k' acc)
  = if decide (k = k') then (lookup_count k acc + 1)%Z else lookup_count k acc.
Proof.
  induction acc as [| [k0 c] acc IH]; simpl.
  - destruct (decide (k = k')); reflexivity.
  - destruct (decide (k' = k0)) as [-> | Hne]; simpl.
    + destruct (decide (k = k0)); reflexivity.
    + destruct (decide (k = k0)) as [-> | Hne'].
      * rewrite decide_False by congruence. reflexivity.
      * exact IH.
Qed.

Lemma total_cons k c t : total ((k, c) :: t) = (c + total t)%Z.
Proof. reflexivity. Qed.

Lemma total_bump k acc : total (bump k acc) = (total acc + 1)%Z.
Proof.
  induction acc as [| [k' c] acc IH]; [reflexivity |].
  cbn [bump]. destruct (decide (k = k')).
  - rewrite !total_cons. lia.
  - rewrite !total_cons, IH. lia.
Qed.

Lemma occurrences_snoc k col o :
  occurrences k (col ++ [o])
  = (occurrences k col + if decide (o = Some k) then 1 else 0)%nat.
Proof.
  unfold occurrences. rewrite filter_app, length_app. f_equal.
  rewrite filter_cons, filter_nil. destruct (decide (o = Some k)); reflexivity.
Qed.

Lemma tally_keys col k : k ∈ (tally col).*1 <-> Some k ∈ col.
Proof.
  induction col as [| o col IH] using rev_ind.
  - simpl. rewrite !elem_of_nil. tauto.
  - rewrite tally_snoc, elem_of_app, list_elem_of_singleton.
    destruct o as [k' |].
    + rewrite bump_keys. destruct (decide (k' ∈ (tally col).*1)) as [Hin | Hnin].
      * rewrite IH. split; [tauto |]. intros [Hc | [= ->]]; [exact Hc |].
        apply IH. exact Hin.
      * rewrite elem_of_app, list_elem_of_singleton, IH.
        split; (intros [Hc | Heq]; [left; exact Hc | right; congruence]).
    + rewrite IH. split; [tauto |]. intros [Hc | Heq]; [exact Hc | discriminate].
Qed.

Lemma tally_NoDup col : NoDup (tally col).*1.
Proof.
  induction col as [| o col IH] using rev_ind.
  - apply NoDup_nil_2.
  - rewrite tally_snoc. destruct o as [k |]; [| exact IH].
    rewrite bump_keys. destruct (decide (k ∈ (tally col).*1)) as [Hin | Hnin]; [exact IH |].
    apply NoDup_app. split; [exact IH |]. split.
    + intros x Hx Hx'. apply list_elem_of_singleton in Hx'. congruence.
    + apply NoDup_singleton.
Qed.

Lemma tally_lookup_count col k :
  lookup_count k (tally col) = Z.of_nat (occurrences k col).
Proof.
  induction col as [| o col IH] using rev_ind; [reflexivity |].
  rewrite tally_snoc, occurrences_snoc. destruct o as [k' |].
  - rewrite lookup_count_bump, IH.
    destruct (decide (k = k')) as [-> | Hne].
    + rewrite decide_True by reflexivity. lia.
    + rewrite decide_False by congruence. lia.
  - rewrite decide_False by discriminate. rewrite IH. lia.
Qed.

Lemma tally_total col : total (tally col) = Z.of_nat (length (omap id col)).
Proof.
  induction col as [| o col IH] using rev_ind; [reflexivity |].
  rewrite tally_snoc, omap_app, length_app. destruct o as [k |]; simpl.
  - rewrite total_bump, IH. lia.
  - rewrite IH. lia.
Qed.

Lemma occurrences_pos k col : Some k ∈ col <-> (0 < occurrences k col)%nat.
Proof.
  unfold occurrences. split.
  - intros Hin. assert (Hf : Some k ∈ filter (fun o => o = Some k) col).
    { apply list_elem_of_filter. split; [reflexivity | exact Hin]. }
    destruct (filter _ col); [apply elem_of_nil in Hf; destruct Hf | simpl; lia].
  - intros Hpos. destruct (filter (fun o => o = Some k) col) as [| o l] eqn:E;
      [simpl in Hpos; lia |].
    assert (Hf : o ∈ filter (fun o => o = Some k) col) by (rewrite E; apply list_elem_of_here).
    apply list_elem_of_filter in Hf. destruct Hf as [-> Hf]. exact Hf.
Qed.

(** ** Rows with distinct keys *)

Lemma lookup_count_absent k t : k ∉ t.*1 -> lookup_count k t = 0%Z.
Proof.
  induction t as [| [k' c] t IH]; simpl; [reflexivity |].
  intros Hnin. rewrite not_elem_of_cons in Hnin. destruct Hnin as [Hne Hnin].
  rewrite decide_False by exact Hne. apply IH, Hnin.
Qed.

Lemma elem_of_lookup_count k c t :
  NoDup t.*1 -> (k, c) ∈ t <-> k ∈ t.*1 /\ lookup_count k t = c.
Proof.
  induction t as [| [k' c'] t IH]; simpl; intros Hnd.
  - rewrite !elem_of_nil. tauto.
  - apply NoDup_cons in Hnd. destruct Hnd as [Hnin Hnd].
    rewrite !elem_of_cons, (IH Hnd).
    destruct (decide (k = k')) as [-> | Hne].
    + split.
      * intros [[= ->] | [Hin _]]; [tauto | contradiction].
      * intros [_ ->]. left. reflexivity.
    + split.
      * intros [[= -> _] | [Hin Hc]]; [congruence | tauto].
      * intros [[-> | Hin] Hc]; [congruence | tauto].
Qed.

Lemma filter_key k t :
  NoDup t.*1 ->
  filter (fun kc => kc.1 = k) t
  = if decide (k ∈ t.*1) then [(k, lookup_count k t)] else [].
Proof.
  induction t as [| [k' c'] t IH]; intros Hnd.
  - rewrite decide_False by (rewrite fmap_nil; apply not_elem_of_nil). reflexivity.
  - rewrite fmap_cons in Hnd |- *. cbn [fst] in Hnd |- *.
    apply NoDup_cons in Hnd. destruct Hnd as [Hnin Hnd].
    rewrite filter_cons. cbn [fst lookup_count]. rewrite (IH Hnd).
    destruct (decide (k' = k)) as [-> | Hne].
    + rewrite (decide_False (P := k ∈ t.*1)) by exact Hnin.
      rewrite (decide_True (P := k ∈ k :: t.*1)) by apply list_elem_of_here.
      rewrite (decide_True (P := k = k)) by reflexivity. reflexivity.
    + rewrite (decide_False (P := k = k')) by congruence.
      destruct (decide (k ∈ t.*1)) as [Hin | Hnin'].
      * rewrite decide_True by (apply list_elem_of_further; exact Hin). reflexivity.
      * rewrite decide_False; [reflexivity |]. rewrite elem_of_cons.
        intros [-> | Hin]; [congruence | contradiction].
Qed.

Lemma lookup_count_Permutation k (t t' : list (string * Z)) :
  NoDup t.*1 -> t ≡ₚ t' -> lookup_count k t = lookup_count k t'.
Proof.
  intros Hnd Hp.
  assert (Hnd' : NoDup t'.*1) by (rewrite <- Hp; exact Hnd).
  destruct (decide (k ∈ t.*1)) as [Hin | Hnin].
  - assert (Hm : (k, lookup_count k t) ∈ t) by (apply elem_of_lookup_count; auto).
    assert (Hm' : (k, lookup_count k t) ∈ t') by (rewrite <- Hp; exact Hm).
    apply elem_of_lookup_count in Hm'; [| exact Hnd'].
    symmetry. apply Hm'.
  - rewrite (lookup_count_absent _ _ Hnin). symmetry. apply lookup_count_absent.
    rewrite <- Hp. exact Hnin.
Qed.

Lemma total_Permutation (t t' : list (string * Z)) : t ≡ₚ t' -> total t = total t'.
Proof.
  induction 1 as [| [k c] t t' _ IH | [k c] [k' c'] t | t t' t'' _ IH1 _ IH2].
  - reflexivity.
  - rewrite !total_cons, IH. reflexivity.
  - rewrite !total_cons. lia.
  - rewrite IH1. exact IH2.
Qed.

(** ** Sorted tables *)


Section Facts.

Context {G : Type} {W : Within G} {SV : SortValues} {SP : Sampler}.

Implicit Types (s : state G) (d : DataFrame) (g : list (Region G)).

(** ** The state *)

Lemma state_lookup_insert_eq s l (o : object G) : <[l := o]> s !! l = Some o.
Proof. change (<[l := o]> (heap s) !! l = Some o). apply lookup_insert_eq. Qed.

Lemma state_lookup_insert_ne s l k (o : object G) : l <> k -> <[l := o]> s !! k = s !! k.
Proof.
  intros Hne. change (<[l := o]> (heap s) !! k = heap s !! k).
  apply lookup_insert_ne, Hne.
Qed.

Lemma fresh_lookup s : s !! fresh (dom s) = None.
Proof. change (heap s !! fresh (dom (heap s)) = None). apply not_elem_of_dom, is_fresh. Qed.

(** ** Running [filter_by_date] *)

Lemma has_column_true name d : has_column name d = true <-> name ∈ columns d.
Proof. unfold has_column. apply bool_decide_eq_true. Qed.

Lemma filter_rows_dated d mode ds de dx :
  "acq_date" ∈ columns d ->
  filter_rows d mode ds de dx
  = Ok (boolean_index d (date_mask mode ds de dx (acq_date <$> rows d))).
Proof.
  intros Hc. unfold filter_rows, getitem_acq_date, date_mask.
  apply has_column_true in Hc. rewrite Hc.
  destruct (String.eqb mode "range"); reflexivity.
Qed.

Lemma filter_rows_undated d mode ds de dx :
  "acq_date" ∉ columns d -> filter_rows d mode ds de dx = Raise (KeyError "acq_date").
Proof.
  intros Hc. unfold filter_rows, getitem_acq_date, has_column.
  rewrite (bool_decide_eq_false_2 _ Hc). reflexivity.
Qed.

(** The key of a call covers the column labels and every argument. *)
Lemma entry_key_inv e d mode ds de dx :
  entry_key e = call_key d mode ds de dx ->
  columns (origin e) = columns d /\ length (rows (origin e)) = length (rows d)
  /\ entry_mode e = mode /\ entry_start e = ds /\ entry_end e = de /\ entry_exact e = dx.
Proof.
  unfold entry_key, call_key, frame_key. intros [= Hl Hc _ Hm Hs He Hx]. auto 10.
Qed.

Lemma cache_get_Some d mode ds de dx c e :
  cache_get d mode ds de dx c = Some e ->
  e ∈ c /\ entry_key e = call_key d mode ds de dx.
Proof.
  unfold cache_get. intros Hh.
  destruct (filter (fun e => entry_key e = call_key d mode ds de dx) c) as [| e' t] eqn:E;
    [discriminate |].
  injection Hh as ->.
  assert (He : e ∈ filter (fun e => entry_key e = call_key d mode ds de dx) c)
    by (rewrite E; apply list_elem_of_here).
  apply list_elem_of_filter in He. tauto.
Qed.

(** The frame a call gets when it is not answered with the rows of
    another frame. *)
Lemma cache_get_agrees s d mode ds de dx e :
  cache_agrees s d mode ds de dx ->
  cache_get d mode ds de dx (cache s) = Some e ->
  cached_value e = filter_rows d mode ds de dx.
Proof.
  intros Hag Hget. apply cache_get_Some in Hget. destruct Hget as [Hin Hkey].
  assert (Ho := Hag e Hin Hkey).
  destruct (entry_key_inv _ _ _ _ _ _ Hkey) as (_ & _ & Hm & Hs & He & Hx).
  unfold cached_value. rewrite Ho, Hm, Hs, He, Hx. reflexivity.
Qed.

(** The key of a frame below the sampling threshold covers all its
    rows, so no other frame shares it: such a frame is never answered
    with the rows of another. *)
Lemma cache_agrees_small s d mode ds de dx :
  (Z.of_nat (length (rows d)) < PANDAS_ROWS_LARGE)%Z -> cache_agrees s d mode ds de dx.
Proof.
  intros Hsmall e _ Hkey. unfold entry_key, call_key, frame_key in Hkey.
  injection Hkey as Hlen Hcols Hrows _ _ _ _.
  unfold hashed_rows in Hrows. rewrite Hlen in Hrows.
  destruct (PANDAS_ROWS_LARGE <=? Z.of_nat (length (rows d)))%Z eqn:E;
    [apply Z.leb_le in E; lia |].
  apply (inj (fmap Some)) in Hrows.
  destruct (origin e), d. cbn [rows columns] in *. congruence.
Qed.

(** What any successful call does to the state. *)
Lemma filter_by_date_inv s df mode ds de dx l s1 :
  filter_by_date df mode ds de dx s = Ok (l, s1) ->
  exists d dfl,
    s !! df = Some (DF d) /\ "acq_date" ∈ columns d
    /\ l = fresh (dom s) /\ s !! l = None
    /\ s1 !! l = Some (DF dfl)
    /\ columns dfl = columns d
    /\ (forall k, k <> l -> s1 !! k = s !! k)
    /\ (cache s1 = cache s \/ cache s1 = cache s ++ [mkEntry d mode ds de dx]).
Proof.
  intros Hrun. unfold filter_by_date, bind, read_df in Hrun.
  destruct (s !! df) as [[d | g | m] |] eqn:Hd; try discriminate.
  unfold get_cache in Hrun. cbn beta iota in Hrun.
  destruct (cache_get d mode ds de dx (cache s)) as [e |] eqn:Hget.
  - apply cache_get_Some in Hget. destruct Hget as [_ Hkey].
    destruct (entry_key_inv _ _ _ _ _ _ Hkey) as (Hcols & _ & Hm & Hs & He & Hx).
    unfold lift, cached_value in Hrun.
    destruct (decide ("acq_date" ∈ columns (origin e))) as [Hc | Hc].
    + rewrite (filter_rows_dated _ _ _ _ _ Hc) in Hrun.
      unfold alloc in Hrun. injection Hrun as <- <-.
      eexists d, _. split; [reflexivity |]. split; [rewrite <- Hcols; exact Hc |].
      split; [reflexivity |]. split; [exact (fresh_lookup s) |].
      split; [apply state_lookup_insert_eq |]. split; [exact Hcols |].
      split; [| left; reflexivity].
      intros k Hk. rewrite state_lookup_insert_ne by congruence. reflexivity.
    + rewrite (filter_rows_undated _ _ _ _ _ Hc) in Hrun. discriminate.
  - unfold lift in Hrun.
    destruct (decide ("acq_date" ∈ columns d)) as [Hc | Hc].
    + rewrite (filter_rows_dated _ _ _ _ _ Hc) in Hrun.
      unfold cache_put, alloc in Hrun. injection Hrun as <- <-.
      eexists d, _. split; [reflexivity |]. split; [exact Hc |].
      split; [reflexivity |]. split; [exact (fresh_lookup s) |].
      split; [apply state_lookup_insert_eq |]. split; [reflexivity |].
      split; [| right; reflexivity].
      intros k Hk. rewrite state_lookup_insert_ne by congruence. reflexivity.
    + rewrite (filter_rows_undated _ _ _ _ _ Hc) in Hrun. discriminate.
Qed.

(** A call on a dated frame returns a frame, from the cache or not. *)
Lemma filter_by_date_dated s df d mode ds de dx :
  s !! df = Some (DF d) -> "acq_date" ∈ columns d ->
  exists l s1, filter_by_date df mode ds de dx s = Ok (l, s1).
Proof.
  intros Hd Hc. unfold filter_by_date, bind, read_df. rewrite Hd.
  unfold get_cache. cbn beta iota.
  destruct (cache_get d mode ds de dx (cache s)) as [e |] eqn:Hget.
  - apply cache_get_Some in Hget. destruct Hget as [_ Hkey].
    destruct (entry_key_inv _ _ _ _ _ _ Hkey) as (Hcols & _).
    unfold lift, cached_value. rewrite filter_rows_dated by (rewrite Hcols; exact Hc).
    unfold alloc. eexists _, _. reflexivity.
  - unfold lift. rewrite (filter_rows_dated _ _ _ _ _ Hc).
    unfold cache_put, alloc. eexists _, _. reflexivity.
Qed.

(** A call that is not answered with the rows of another frame returns
    the rows of its frame that pass the date mask. *)
Lemma filter_by_date_run s df d mode ds de dx :
  s !! df = Some (DF d) -> "acq_date" ∈ columns d ->
  cache_agrees s d mode ds de dx ->
  exists s1,
    filter_by_date df mode ds de dx s = Ok (fresh (dom s), s1)
    /\ s1 !! fresh (dom s)
       = Some (DF (boolean_index d (date_mask mode ds de dx (acq_date <$> rows d))))
    /\ (forall k, k <> fresh (dom s) -> s1 !! k = s !! k)
    /\ (cache s1 = cache s \/ cache s1 = cache s ++ [mkEntry d mode ds de dx]).
Proof.
  intros Hd Hc Hag. unfold filter_by_date, bind, read_df. rewrite Hd.
  unfold get_cache. cbn beta iota.
  destruct (cache_get d mode ds de dx (cache s)) as [e |] eqn:Hget.
  - rewrite (cache_get_agrees _ _ _ _ _ _ _ Hag Hget).
    unfold lift. rewrite (filter_rows_dated _ _ _ _ _ Hc). unfold alloc.
    eexists. split; [reflexivity |]. split; [apply state_lookup_insert_eq |].
    split; [| left; reflexivity].
    intros k Hk. rewrite state_lookup_insert_ne by (intros E; apply Hk; symmetry; exact E).
    reflexivity.
  - unfold lift. rewrite (filter_rows_dated _ _ _ _ _ Hc). unfold cache_put, alloc.
    eexists. split; [reflexivity |]. split; [apply state_lookup_insert_eq |].
    split; [| right; reflexivity].
    intros k Hk. rewrite state_lookup_insert_ne by (intros E; apply Hk; symmetry; exact E).
    reflexivity.
Qed.


(** A call whose key has no entry runs the function and stores an
    entry. *)
Lemma filter_by_date_miss s df d mode ds de dx :
  s !! df = Some (DF d) -> "acq_date" ∈ columns d ->
  cache_get d mode ds de dx (cache s) = None ->
  exists s1,
    filter_by_date df mode ds de dx s = Ok (fresh (dom s), s1)
    /\ s1 !! fresh (dom s)
       = Some (DF (boolean_index d (date_mask mode ds de dx (acq_date <$> rows d))))
    /\ (forall k, k <> fresh (dom s) -> s1 !! k = s !! k)
    /\ cache s1 = cache s ++ [mkEntry d mode ds de dx].
Proof.
  intros Hd Hc Hget. unfold filter_by_date, bind, read_df. rewrite Hd.
  unfold get_cache. cbn beta iota. rewrite Hget.
  unfold lift. rewrite (filter_rows_dated _ _ _ _ _ Hc). unfold cache_put, alloc.
  eexists. split; [reflexivity |]. split; [apply state_lookup_insert_eq |].
  split; [| reflexivity].
  intros k Hk. rewrite state_lookup_insert_ne by (intros E; apply Hk; symmetry; exact E).
  reflexivity.
Qed.

(** A call whose key has an entry gets the frame stored there, and
    stores nothing. *)
Lemma filter_by_date_hit s df d mode ds de dx e :
  s !! df = Some (DF d) -> "acq_date" ∈ columns d ->
  cache_get d mode ds de dx (cache s) = Some e ->
  exists s1,
    filter_by_date df mode ds de dx s = Ok (fresh (dom s), s1)
    /\ s1 !! fresh (dom s)
       = Some (DF (boolean_index (origin e)
                     (date_mask mode ds de dx (acq_date <$> rows (origin e)))))
    /\ (forall k, k <> fresh (dom s) -> s1 !! k = s !! k)
    /\ cache s1 = cache s.
Proof.
  intros Hd Hc Hget. unfold filter_by_date, bind, read_df. rewrite Hd.
  unfold get_cache. cbn beta iota. rewrite Hget.
  apply cache_get_Some in Hget. destruct Hget as [_ Hkey].
  destruct (entry_key_inv _ _ _ _ _ _ Hkey) as (Hcols & _ & Hm & Hs & He & Hx).
  unfold lift, cached_value. rewrite Hm, Hs, He, Hx.
  rewrite filter_rows_dated by (rewrite Hcols; exact Hc). unfold alloc.
  eexists. split; [reflexivity |]. split; [apply state_lookup_insert_eq |].
  split; [| reflexivity].
  intros k Hk. rewrite state_lookup_insert_ne by (intros E; apply Hk; symmetry; exact E).
  reflexivity.
Qed.

(** A location in use is not the next new one. *)
Lemma used_not_fresh s k (o : object G) : s !! k = Some o -> k <> fresh (dom s).
Proof. intros Hk E. rewrite E, fresh_lookup in Hk. discriminate. Qed.

(** ** Reading the heat data *)

Lemma getitem_latitude d :
  "latitude" ∈ columns d -> getitem d "latitude" = Ok (latitude <$> rows d).
Proof. intros Hc. unfold getitem. apply has_column_true in Hc. rewrite Hc. reflexivity. Qed.

Lemma getitem_longitude d :
  "longitude" ∈ columns d -> getitem d "longitude" = Ok (longitude <$> rows d).
Proof. intros Hc. unfold getitem. apply has_column_true in Hc. rewrite Hc. reflexivity. Qed.

Lemma getitem_brightness d :
  "brightness" ∈ columns d -> getitem d "brightness" = Ok (brightness <$> rows d).
Proof. intros Hc. unfold getitem. apply has_column_true in Hc. rewrite Hc. reflexivity. Qed.

Lemma zip_with_set_brightness (l : list Row) :
  zip_with set_brightness l (brightness <$> l) = l.
Proof.
  induction l as [| [a la lo b] l IH]; [reflexivity |].
  rewrite fmap_cons. cbn [zip_with]. rewrite IH. reflexivity.
Qed.

Lemma zip_columns {A} (f g h : A -> Q) (l : list A) :
  zip (zip (f <$> l) (g <$> l)) (h <$> l) = (fun x => (f x, g x, h x)) <$> l.
Proof.
  induction l as [| x l IH]; [reflexivity |].
  rewrite !fmap_cons. cbn [zip zip_with]. f_equal. exact IH.
Qed.

(** The rows after [df['brightness'] = df.get('brightness', 1)]. *)
Lemma setitem_brightness_rows d :
  rows (setitem_brightness d (get d "brightness" 1))
  = (fun r => set_brightness r (intensity d r)) <$> rows d.
Proof.
  unfold setitem_brightness, get, intensity. cbn [rows].
  destruct (has_column "brightness" d) eqn:Hb.
  - apply has_column_true in Hb. rewrite (getitem_brightness _ Hb).
    rewrite zip_with_set_brightness.
    rewrite <- (list_fmap_id (rows d)) at 1. apply list_fmap_ext.
    intros _ [a la lo b] _. reflexivity.
  - unfold getitem. rewrite Hb. reflexivity.
Qed.

Lemma setitem_brightness_columns d name :
  name ∈ columns d -> name ∈ columns (setitem_brightness d (get d "brightness" 1)).
Proof.
  intros Hc. unfold setitem_brightness. cbn [columns].
  destruct (has_column "brightness" d); [exact Hc |].
  apply elem_of_union. left. exact Hc.
Qed.

Lemma setitem_brightness_has d :
  "brightness" ∈ columns (setitem_brightness d (get d "brightness" 1)).
Proof.
  unfold setitem_brightness. cbn [columns].
  destruct (has_column "brightness" d) eqn:Hb.
  - apply has_column_true, Hb.
  - apply elem_of_union. right. apply elem_of_singleton. reflexivity.
Qed.

Lemma values_tolist_setitem d :
  "latitude" ∈ columns d -> "longitude" ∈ columns d ->
  values_tolist (setitem_brightness d (get d "brightness" 1)) = Ok (heat_data_of d).
Proof.
  intros Hla Hlo. unfold values_tolist.
  rewrite (getitem_latitude _ (setitem_brightness_columns _ _ Hla)).
  rewrite (getitem_longitude _ (setitem_brightness_columns _ _ Hlo)).
  rewrite (getitem_brightness _ (setitem_brightness_has d)).
  rewrite zip_columns, setitem_brightness_rows, <- list_fmap_compose.
  unfold heat_data_of.
  apply has_column_true in Hla, Hlo. rewrite Hla, Hlo. reflexivity.
Qed.

Lemma heat_data_of_guard_false d :
  has_column "latitude" d && has_column "longitude" d && negb (empty d) = false ->
  heat_data_of d = [].
Proof.
  unfold heat_data_of, empty.
  destruct (has_column "latitude" d && has_column "longitude" d); [| reflexivity].
  destruct (rows d); [reflexivity | discriminate].
Qed.

(** ** The merged frame *)

Lemma merge_fillna g (pc : list (string * Z)) :
  NoDup pc.*1 ->
  fillna_astype_int (merge g pc)
  = (fun r => mkCounted r (Some (lookup_count (ADM1_TH r) pc))) <$> g.
Proof.
  intros Hnd. unfold merge, fillna_astype_int.
  induction g as [| r g IH]; [reflexivity |].
  rewrite bind_cons, fmap_app, fmap_cons, IH. clear IH.
  rewrite (filter_key _ _ Hnd).
  destruct (decide (ADM1_TH r ∈ pc.*1)) as [Hin | Hnin].
  - reflexivity.
  - cbn. rewrite (lookup_count_absent _ _ Hnin). reflexivity.
Qed.

Lemma sort_values_desc_nil : sort_values_desc [] = [].
Proof. apply Permutation_nil_r, sort_values_desc_Permutation. Qed.

Lemma value_counts_nil : value_counts [] = [].
Proof. apply sort_values_desc_nil. Qed.

Lemma value_counts_NoDup col : NoDup (value_counts col).*1.
Proof.
  unfold value_counts. rewrite sort_values_desc_Permutation. apply tally_NoDup.
Qed.

Lemma value_counts_lookup_count col k :
  lookup_count k (value_counts col) = Z.of_nat (occurrences k col).
Proof.
  unfold value_counts. rewrite <- tally_lookup_count. symmetry.
  apply lookup_count_Permutation; [apply tally_NoDup |].
  symmetry. apply sort_values_desc_Permutation.
Qed.

Lemma value_counts_keys col k : k ∈ (value_counts col).*1 <-> Some k ∈ col.
Proof.
  unfold value_counts. rewrite sort_values_desc_Permutation. apply tally_keys.
Qed.

(** ** Running [generate_heatmap] *)

Lemma province_layer_add_heat (m : list (CountedRegion G)) n loc z :
  province_layer (add_to (HeatMap n) (add_to (GeoJson m) (folium_Map loc z))) = m.
Proof. unfold province_layer, add_to. cbn. rewrite !app_nil_r. reflexivity. Qed.

Lemma province_layer_add (m : list (CountedRegion G)) loc z :
  province_layer (add_to (GeoJson m) (folium_Map loc z)) = m.
Proof. unfold province_layer, add_to. cbn. rewrite !app_nil_r. reflexivity. Qed.

Lemma province_layer_drawn (m : list (CountedRegion G)) hd : province_layer (drawn m hd) = m.
Proof.
  unfold drawn. destruct (normalize hd).
  - apply province_layer_add.
  - apply province_layer_add_heat.
Qed.

Lemma heat_layer_drawn (m : list (CountedRegion G)) hd : heat_layer (drawn m hd) = normalize hd.
Proof.
  unfold drawn. destruct (normalize hd) as [| x n] eqn:E.
  - reflexivity.
  - unfold heat_layer, add_to. cbn. rewrite app_nil_r. reflexivity.
Qed.

Lemma generate_heatmap_run s gdf df_all g mode ds de dx l s1 dfl :
  s !! gdf = Some (GDF g) ->
  filter_by_date df_all mode ds de dx s = Ok (l, s1) ->
  s1 !! l = Some (DF dfl) ->
  exists s',
    generate_heatmap mode ds de dx gdf df_all s
    = Ok ((drawn (fillna_astype_int (merge g (value_counts (joined_names dfl g))))
                 (heat_data_of dfl),
           sort_values_desc (value_counts (joined_names dfl g))), s')
    /\ (forall k o, s !! k = Some o -> s' !! k = Some o)
    /\ (exists k, s !! k = None
          /\ s' !! k = Some (Merged (fillna_astype_int
                                       (merge g (value_counts (joined_names dfl g)))))).
Proof.
  intros Hg Hrun Hl.
  destruct (filter_by_date_inv _ _ _ _ _ _ _ _ Hrun)
    as (d & dfl0 & Hd & Hc & El & Hfresh & _ & _ & Hsame & _).
  assert (Hne : gdf <> l) by congruence.
  unfold generate_heatmap. unfold bind at 1. rewrite Hrun.
  unfold bind at 1. unfold read_df at 1. rewrite Hl.
  set (guard := has_column "latitude" dfl && has_column "longitude" dfl && negb (empty dfl)).
  (* the store and the heat data after the first block *)
  assert (Hblock : exists s2,
    (if guard then
       write l (DF (setitem_brightness dfl (get dfl "brightness" 1))) ;;;
       d' <- read_df l ;; lift (values_tolist d')
     else ret []) s1 = Ok (heat_data_of dfl, s2)
    /\ (forall k o, s !! k = Some o -> s2 !! k = Some o)).
  { destruct guard eqn:Eg.
    - exists (<[l := DF (setitem_brightness dfl (get dfl "brightness" 1))]> s1). split.
      + unfold bind, write, read_df, lift. rewrite state_lookup_insert_eq.
        unfold guard in Eg. apply andb_true_iff in Eg. destruct Eg as [Eg _].
        apply andb_true_iff in Eg. destruct Eg as [Hla Hlo].
        apply has_column_true in Hla, Hlo.
        rewrite (values_tolist_setitem _ Hla Hlo). reflexivity.
      + intros k o Hk. assert (k <> l) by congruence.
        rewrite state_lookup_insert_ne by congruence.
        rewrite Hsame by assumption. exact Hk.
    - exists s1. split.
      + unfold ret. rewrite (heat_data_of_guard_false _ Eg). reflexivity.
      + intros k o Hk. assert (k <> l) by congruence.
        rewrite Hsame by assumption. exact Hk. }
  destruct Hblock as (s2 & Hblock & Hkeep).
  unfold bind at 1. rewrite Hblock.
  unfold bind at 1. unfold read_gdf at 1. rewrite (Hkeep _ _ Hg).
  unfold bind, alloc, read_merged, write, ret.
  rewrite !state_lookup_insert_eq.
  eexists. split; [reflexivity |]. split.
  - intros k o Hk. assert (Hk2 := Hkeep _ _ Hk).
    assert (k <> fresh (dom s2)).
    { intros ->. rewrite fresh_lookup in Hk2. discriminate. }
    rewrite !state_lookup_insert_ne by congruence. exact Hk2.
  - exists (fresh (dom s2)). split; [| apply state_lookup_insert_eq].
    destruct (s !! fresh (dom s2)) as [o |] eqn:E; [| reflexivity].
    apply Hkeep in E. rewrite fresh_lookup in E. discriminate.
Qed.


(** ** The spatial join *)

Lemma filter_iff_elem_of {A} (P Q : A -> Prop)
    `{!forall x, Decision (P x), !forall x, Decision (Q x)} (l : list A) :
  (forall x, x ∈ l -> P x <-> Q x) -> filter P l = filter Q l.
Proof.
  induction l as [| a l IH]; intros HPQ; [reflexivity |].
  assert (Ha : P a <-> Q a) by (apply HPQ, list_elem_of_here).
  assert (Hl : filter P l = filter Q l).
  { apply IH. intros x Hx. apply HPQ, list_elem_of_further, Hx. }
  destruct (decide (P a)) as [HP | HP].
  - rewrite !filter_cons_True by tauto. rewrite Hl. reflexivity.
  - rewrite !filter_cons_False by tauto. exact Hl.
Qed.

Lemma matches_from_regions j p g : (matches_from j p g).*2 = matching p g.
Proof.
  unfold matches_from, matching. revert j.
  induction g as [| r g IH]; intros j; [reflexivity |].
  cbn [length seq zip zip_with]. rewrite !filter_cons. cbn [snd].
  destruct (decide (within p (geometry r) = true)).
  - rewrite fmap_cons. cbn [snd]. rewrite (IH (S j)). reflexivity.
  - apply (IH (S j)).
Qed.

Lemma sjoin_from_names i pts g :
  joined_ADM1_TH <$> sjoin_from i pts g = pts ≫= (fun p => names_of_point p g).
Proof.
  revert i. induction pts as [| p pts IH]; intros i; [reflexivity |].
  cbn [sjoin_from]. rewrite fmap_app, bind_cons, (IH (S i)). f_equal.
  unfold names_of_point. rewrite <- (matches_from_regions 0 p g).
  destruct (matches_from 0 p g) as [| jr ms]; [reflexivity |].
  rewrite (fmap_cons snd). cbv beta iota.
  rewrite <- (fmap_cons snd), <- !list_fmap_compose. reflexivity.
Qed.

Lemma elem_of_names_of_point p g k :
  Some k ∈ names_of_point p g
  <-> exists r, r ∈ g /\ ADM1_TH r = k /\ within p (geometry r) = true.
Proof.
  unfold names_of_point.
  assert (Hm : Some k ∈ (fun r => Some (ADM1_TH r)) <$> matching p g
               <-> exists r, r ∈ g /\ ADM1_TH r = k /\ within p (geometry r) = true).
  { rewrite list_elem_of_fmap. unfold matching. split.
    - intros (r & [= ->] & Hr). apply list_elem_of_filter in Hr. exists r. tauto.
    - intros (r & Hr & <- & Hw). exists r. split; [reflexivity |].
      apply list_elem_of_filter. tauto. }
  destruct (matching p g) as [| r ms] eqn:E; [| exact Hm].
  rewrite <- Hm, fmap_nil, list_elem_of_singleton, elem_of_nil.
  split; [discriminate | tauto].
Qed.

Lemma elem_of_joined_names dfl g k :
  Some k ∈ joined_names dfl g
  <-> exists p r, p ∈ heat_points_of dfl /\ r ∈ g /\ ADM1_TH r = k
                  /\ within p (geometry r) = true.
Proof.
  unfold joined_names, joined_of, sjoin. rewrite sjoin_from_names, list_elem_of_bind.
  split.
  - intros (p & Hk & Hp). apply elem_of_names_of_point in Hk.
    destruct Hk as (r & Hr). exists p, r. tauto.
  - intros (p & r & Hp & Hr). exists p. split; [| exact Hp].
    apply elem_of_names_of_point. exists r. exact Hr.
Qed.

Lemma sjoin_from_left_index i pts g j :
  j ∈ sjoin_from i pts g -> (i <= left_index j)%nat.
Proof.
  revert i. induction pts as [| p pts IH]; intros i; cbn [sjoin_from].
  - intros Hj. apply elem_of_nil in Hj. destruct Hj.
  - intros Hj. apply elem_of_app in Hj. destruct Hj as [Hj | Hj].
    + destruct (matches_from 0 p g) as [| jr ms].
      * apply list_elem_of_singleton in Hj. subst j. cbn. lia.
      * apply list_elem_of_fmap in Hj. destruct Hj as (x & -> & _). cbn. lia.
    + apply IH in Hj. lia.
Qed.

(** The rows of the join follow the order of the points. *)
Lemma sjoin_from_monotone i pts g a b ja jb :
  (a < b)%nat ->
  sjoin_from i pts g !! a = Some ja -> sjoin_from i pts g !! b = Some jb ->
  (left_index ja <= left_index jb)%nat.
Proof.
  revert i a b. induction pts as [| p pts IH]; intros i a b Hab Ha Hb.
  - cbn [sjoin_from] in Ha. rewrite lookup_nil in Ha. discriminate.
  - cbn [sjoin_from] in Ha, Hb.
    set (head := match matches_from 0 p g with
                 | [] => [mkJoined i p None None]
                 | ms => (fun jr => mkJoined i p (Some jr.1) (Some (ADM1_TH jr.2))) <$> ms
                 end) in *.
    assert (Hhead : forall j, j ∈ head -> left_index j = i).
    { intros j Hj. unfold head in Hj. destruct (matches_from 0 p g).
      - apply list_elem_of_singleton in Hj. subst j. reflexivity.
      - apply list_elem_of_fmap in Hj. destruct Hj as (x & -> & _). reflexivity. }
    assert (Hge : forall j, j ∈ head ++ sjoin_from (S i) pts g -> (i <= left_index j)%nat).
    { intros j Hj. apply elem_of_app in Hj. destruct Hj as [Hj | Hj].
      - rewrite (Hhead j Hj). lia.
      - apply sjoin_from_left_index in Hj. lia. }
    apply lookup_app_Some in Ha. destruct Ha as [Ha | [Hla Ha]].
    + rewrite (Hhead ja (list_elem_of_lookup_2 _ _ _ Ha)).
      apply Hge. eapply list_elem_of_lookup_2, Hb.
    + apply lookup_app_Some in Hb. destruct Hb as [Hb | [Hlb Hb]].
      * apply lookup_lt_Some in Hb. lia.
      * apply (IH (S i) (a - length head)%nat (b - length head)%nat); [lia | exact Ha | exact Hb].
Qed.

(** At most one element of a list satisfies a property that no two of
    its positions share. *)
Lemma length_filter_exclusive {A} (P : A -> Prop) `{!forall x, Decision (P x)} (l : list A) :
  (forall i j x y, l !! i = Some x -> l !! j = Some y -> i <> j -> P x -> P y -> False) ->
  (length (filter P l) <= 1)%nat.
Proof.
  induction l as [| a l IH]; intros Hex; [simpl; lia |].
  assert (Hl : (length (filter P l) <= 1)%nat).
  { apply IH. intros i j x y Hi Hj Hne. apply (Hex (S i) (S j)); auto. }
  destruct (decide (P a)) as [Ha | Ha].
  - rewrite filter_cons_True by exact Ha.
    destruct (filter P l) as [| b l'] eqn:E; [simpl; lia |].
    assert (Hb : b ∈ filter P l) by (rewrite E; apply list_elem_of_here).
    apply list_elem_of_filter in Hb. destruct Hb as [Hb Hin].
    apply list_elem_of_lookup_1 in Hin. destruct Hin as (j & Hj).
    destruct (Hex 0%nat (S j) a b); auto.
  - rewrite filter_cons_False by exact Ha. exact Hl.
Qed.

Lemma pairwise_disjoint_matching g p :
  pairwise_disjoint g -> (length (matching p g) <= 1)%nat.
Proof.
  intros Hd. unfold matching. apply length_filter_exclusive.
  intros i j x y Hi Hj Hne Hx Hy. exact (Hd p i j x y Hi Hj Hne Hx Hy).
Qed.

(** With at most one region per point, every point is either counted
    once or assigned to no region. *)
Lemma sjoin_from_partition i pts g :
  (forall p, p ∈ pts -> (length (matching p g) <= 1)%nat) ->
  (length (omap id (joined_ADM1_TH <$> sjoin_from i pts g))
   + length (filter (fun k => ~ assigned (sjoin_from i pts g) k) (seq i (length pts)))
   = length pts)%nat.
Proof.
  revert i. induction pts as [| p pts IH]; intros i Hone; [reflexivity |].
  assert (IH' := IH (S i) (fun q Hq => Hone q (list_elem_of_further _ _ _ Hq))).
  clear IH.
  assert (Hp := Hone p (list_elem_of_here _ _)).
  cbn [sjoin_from length seq].
  set (head := match matches_from 0 p g with
               | [] => [mkJoined i p None None]
               | ms => (fun jr => mkJoined i p (Some jr.1) (Some (ADM1_TH jr.2))) <$> ms
               end) in *.
  set (rest := sjoin_from (S i) pts g) in *.
  (* rows of the later points do not carry the index i *)
  assert (Hrest : ~ assigned rest i).
  { unfold assigned. rewrite Exists_exists. intros (j & Hj & Hi & _).
    apply sjoin_from_left_index in Hj. lia. }
  (* rows of this point carry no later index *)
  assert (Hhead : forall j, j ∈ head -> left_index j = i).
  { intros j Hj. unfold head in Hj. destruct (matches_from 0 p g).
    - apply list_elem_of_singleton in Hj. subst j. reflexivity.
    - apply list_elem_of_fmap in Hj. destruct Hj as (x & -> & _). reflexivity. }
  assert (Hlater : filter (fun k => ~ assigned (head ++ rest) k) (seq (S i) (length pts))
                   = filter (fun k => ~ assigned rest k) (seq (S i) (length pts))).
  { apply filter_iff_elem_of. intros k Hk. apply elem_of_seq in Hk.
    unfold assigned. rewrite Exists_app.
    assert (Hno : ~ Exists (fun j => left_index j = k /\ is_Some (joined_ADM1_TH j)) head).
    { rewrite Exists_exists. intros (j & Hj & Hi & _). apply Hhead in Hj. lia. }
    tauto. }
  rewrite fmap_app, omap_app, length_app, filter_cons, Hlater.
  rewrite <- (matches_from_regions 0 p g), length_fmap in Hp.
  unfold head in *. destruct (matches_from 0 p g) as [| jr [| jr' ms]].
  - (* no region: unmatched *)
    rewrite decide_True.
    + cbn [fmap list_fmap omap list_omap length joined_ADM1_TH]. simpl. lia.
    + unfold assigned. rewrite Exists_exists. intros (j & Hj & Hi & Hs).
      apply elem_of_app in Hj. destruct Hj as [Hj | Hj].
      * apply list_elem_of_singleton in Hj. subst j. destruct Hs; discriminate.
      * apply Hrest. apply Exists_exists. eauto.
  - (* one region: counted once *)
    rewrite decide_False.
    + simpl. lia.
    + intros Hn. apply Hn. unfold assigned. apply Exists_exists.
      eexists. split; [apply elem_of_app; left; apply list_elem_of_here |].
      split; [reflexivity | eexists; reflexivity].
  - simpl in Hp. lia.
Qed.


(** ** The date filter *)

Lemma boolean_index_exact d dx :
  rows (boolean_index d (series_eq (acq_date <$> rows d) dx))
  = filter (fun r => acq_date r = dx) (rows d).
Proof. apply select_exact. Qed.

Lemma filter_nil_all {A} (P : A -> Prop) `{!forall x, Decision (P x)} (l : list A) :
  (forall x, x ∈ l -> ~ P x) -> filter P l = [].
Proof.
  induction l as [| a l IH]; intros Hn; [reflexivity |].
  rewrite filter_cons_False by (apply Hn, list_elem_of_here).
  apply IH. intros x Hx. apply Hn, list_elem_of_further, Hx.
Qed.

Lemma date_mask_rows d mode ds de dx :
  rows (boolean_index d (date_mask mode ds de dx (acq_date <$> rows d)))
  = filter (in_criteria mode ds de dx) (rows d).
Proof.
  unfold date_mask, boolean_index. cbn [rows].
  destruct (String.eqb mode "range") eqn:E.
  - rewrite select_range. apply list_filter_iff. intros r.
    unfold in_criteria. rewrite E. reflexivity.
  - rewrite select_exact. apply list_filter_iff. intros r.
    unfold in_criteria. rewrite E. reflexivity.
Qed.

(** C3, as amended. On a detection frame with an [acq_date] column of
    calendar dates, a call of [filter_by_date] that the cache does not
    answer with the rows of another frame returns without error a new
    frame whose rows are, in exact mode, exactly the rows dated
    [date_exact], and in range mode exactly the rows dated from
    [date_start] to [date_end], both ends included; when no row matches
    the frame is empty. *)
Theorem filter_by_date_selects s df d ds de dx :
  s !! df = Some (DF d) -> "acq_date" ∈ columns d ->
  cache_agrees s d "exact" ds de dx -> cache_agrees s d "range" ds de dx ->
  (exists l s1 d1,
      filter_by_date df "exact" ds de dx s = Ok (l, s1)
      /\ s1 !! l = Some (DF d1)
      /\ rows d1 = filter (fun r => acq_date r = dx) (rows d)
      /\ ((forall r, r ∈ rows d -> acq_date r <> dx) -> rows d1 = []))
  /\ (exists l s1 d1,
      filter_by_date df "range" ds de dx s = Ok (l, s1)
      /\ s1 !! l = Some (DF d1)
      /\ rows d1 = filter (fun r => date_le ds (acq_date r) /\ date_le (acq_date r) de)
                     (rows d)
      /\ ((forall r, r ∈ rows d -> ~ (date_le ds (acq_date r) /\ date_le (acq_date r) de))
          -> rows d1 = [])).
Proof.
  intros Hd Hc Hex Hra. split.
  - destruct (filter_by_date_run _ _ _ _ _ _ _ Hd Hc Hex) as (s1 & Hrun & Hl & _).
    eexists _, s1, _. split; [exact Hrun |]. split; [exact Hl |].
    cbn [date_mask String.eqb Ascii.eqb Bool.eqb boolean_index rows].
    rewrite select_exact. split; [reflexivity |]. apply filter_nil_all.
  - destruct (filter_by_date_run _ _ _ _ _ _ _ Hd Hc Hra) as (s1 & Hrun & Hl & _).
    eexists _, s1, _. split; [exact Hrun |]. split; [exact Hl |].
    cbn [date_mask String.eqb Ascii.eqb Bool.eqb boolean_index rows].
    rewrite select_range. split; [reflexivity |]. apply filter_nil_all.
Qed.

(** C4, as amended. When the cache answers neither call with the rows
    of another frame, range mode with both ends equal to a date [D] and
    exact mode with [D] return equal frames. *)
Theorem filter_by_date_point_range s df d (D ds de dx : date) :
  s !! df = Some (DF d) -> "acq_date" ∈ columns d ->
  cache_agrees s d "range" D D dx -> cache_agrees s d "exact" ds de D ->
  exists l1 s1 l2 s2 d1,
    filter_by_date df "range" D D dx s = Ok (l1, s1)
    /\ filter_by_date df "exact" ds de D s = Ok (l2, s2)
    /\ s1 !! l1 = Some (DF d1)
    /\ s2 !! l2 = Some (DF d1)
    /\ rows d1 = filter (fun r => acq_date r = D) (rows d).
Proof.
  intros Hd Hc Hra Hex.
  destruct (filter_by_date_run _ _ _ _ _ _ _ Hd Hc Hra) as (s1 & Hrun1 & Hl1 & _).
  destruct (filter_by_date_run _ _ _ _ _ _ _ Hd Hc Hex) as (s2 & Hrun2 & Hl2 & _).
  eexists _, s1, _, s2, _. split; [exact Hrun1 |]. split; [exact Hrun2 |].
  split; [exact Hl1 |]. split.
  - rewrite Hl2. do 2 f_equal. unfold date_mask.
    cbn [String.eqb Ascii.eqb Bool.eqb]. rewrite range_mask_point. reflexivity.
  - unfold date_mask. cbn [String.eqb Ascii.eqb Bool.eqb boolean_index rows].
    rewrite range_mask_point. apply select_exact.
Qed.

(** C10, as amended. Any mode other than ["range"] is treated as exact
    mode: a call that the cache does not answer with the rows of another
    frame returns, without error, the frame of the rows dated
    [date_exact], which is the frame a call in mode ["exact"] returns
    under the same condition. *)
Theorem filter_by_date_other_mode s df d mode ds de dx :
  mode <> "range" ->
  s !! df = Some (DF d) -> "acq_date" ∈ columns d ->
  cache_agrees s d mode ds de dx ->
  exists l s1 d1,
    filter_by_date df mode ds de dx s = Ok (l, s1)
    /\ s1 !! l = Some (DF d1)
    /\ columns d1 = columns d
    /\ rows d1 = filter (fun r => acq_date r = dx) (rows d)
    /\ (cache_agrees s d "exact" ds de dx ->
        exists l2 s2, filter_by_date df "exact" ds de dx s = Ok (l2, s2)
                      /\ s2 !! l2 = Some (DF d1)).
Proof.
  intros Hm Hd Hc Hag. apply String.eqb_neq in Hm.
  assert (Hmask : forall acq, date_mask mode ds de dx acq = series_eq acq dx).
  { intros acq. unfold date_mask. rewrite Hm. reflexivity. }
  destruct (filter_by_date_run _ _ _ _ _ _ _ Hd Hc Hag) as (s1 & Hrun & Hl & _).
  rewrite Hmask in Hl.
  eexists _, s1, _. split; [exact Hrun |]. split; [exact Hl |].
  split; [reflexivity |]. split; [apply select_exact |].
  intros Hex.
  destruct (filter_by_date_run _ _ _ _ _ _ _ Hd Hc Hex) as (s2 & Hrun2 & Hl2 & _).
  eexists _, s2. split; [exact Hrun2 |]. exact Hl2.
Qed.


(** ** Two frames under one key *)

(** The sample of a large frame leaves some position out. *)
Lemma unsampled_position :
  sample_size_ok SP -> exists p, (p < large)%nat /\ p ∉ sample_positions large.
Proof.
  intros Hok.
  destruct (decide (Forall (fun p => p ∈ sample_positions large) (seq 0 large)))
    as [Hall | Hn].
  - exfalso.
    assert (Hsub : seq 0 large ⊆+ sample_positions large).
    { apply NoDup_submseteq; [apply NoDup_seq |].
      intros x Hx. rewrite Forall_forall in Hall. apply Hall, Hx. }
    apply submseteq_length in Hsub. rewrite length_seq in Hsub.
    specialize (Hok large). unfold large, PANDAS_ROWS_LARGE, PANDAS_SAMPLE_SIZE in *. lia.
  - apply not_Forall_Exists in Hn; [| apply _].
    apply Exists_exists in Hn. destruct Hn as (p & Hin & Hp).
    exists p. split; [| exact Hp]. apply elem_of_seq in Hin. lia.
Qed.

(** A frame and its copy with another row at a position outside the
    sample have the same key. *)
Lemma new_frame_key p :
  p ∉ sample_positions large -> frame_key (new_frame p) = frame_key stale_frame.
Proof.
  intros Hp. unfold frame_key, new_frame, stale_frame. cbn [rows columns].
  rewrite length_insert. f_equal. unfold hashed_rows.
  rewrite length_insert, length_replicate.
  destruct (PANDAS_ROWS_LARGE <=? Z.of_nat large)%Z eqn:E;
    [| apply Z.leb_gt in E; unfold large in E; lia].
  apply list_fmap_ext. intros i x Hx. apply list_lookup_insert_ne.
  intros ->. apply Hp. eapply list_elem_of_lookup_2, Hx.
Qed.

Lemma new_row_in_new_frame p : (p < large)%nat -> new_row ∈ rows (new_frame p).
Proof.
  intros Hp. cbn [new_frame rows]. apply list_elem_of_insert.
  rewrite length_replicate. exact Hp.
Qed.

(** After a call on the first frame, the same call on the second gets
    rows of the first. *)
Lemma stale_answer p mode ds de dx :
  p ∉ sample_positions large ->
  exists l1 s1,
    filter_by_date 1%nat mode ds de dx (two_frames (G := G) p) = Ok (l1, s1)
    /\ s1 !! 2%nat = Some (DF (new_frame p))
    /\ cache s1 = [mkEntry stale_frame mode ds de dx]
    /\ forall l s2 d2,
         filter_by_date 2%nat mode ds de dx s1 = Ok (l, s2) ->
         s2 !! l = Some (DF d2) ->
         new_row ∉ rows d2.
Proof.
  intros Hp.
  assert (Hc : "acq_date" ∈ ex_columns) by compute_done.
  assert (H1 : two_frames (G := G) p !! 1%nat = Some (DF stale_frame))
    by apply state_lookup_insert_eq.
  assert (H2 : two_frames (G := G) p !! 2%nat = Some (DF (new_frame p))).
  { unfold two_frames. rewrite state_lookup_insert_ne by discriminate.
    apply state_lookup_insert_eq. }
  destruct (filter_by_date_miss (two_frames (G := G) p) 1%nat stale_frame mode ds de dx H1 Hc eq_refl)
    as (s1 & Hrun & _ & Hsame & Hcache).
  change (cache s1 = [mkEntry stale_frame mode ds de dx]) in Hcache.
  assert (H2' : s1 !! 2%nat = Some (DF (new_frame p))).
  { rewrite Hsame by exact (used_not_fresh _ _ _ H2). exact H2. }
  exists (fresh (dom (two_frames (G := G) p))), s1.
  split; [exact Hrun |]. split; [exact H2' |]. split; [exact Hcache |].
  intros l s2 d2 Hrun2 Hl.
  assert (Hget : cache_get (new_frame p) mode ds de dx (cache s1)
                 = Some (mkEntry stale_frame mode ds de dx)).
  { rewrite Hcache. unfold cache_get.
    rewrite filter_cons_True; [reflexivity |].
    unfold entry_key, call_key. cbn [origin entry_mode entry_start entry_end entry_exact].
    rewrite (new_frame_key p Hp). reflexivity. }
  destruct (filter_by_date_hit s1 2%nat (new_frame p) mode ds de dx _ H2' Hc Hget)
    as (s2' & Hrun2' & Hl2 & _).
  rewrite Hrun2 in Hrun2'. injection Hrun2' as -> ->.
  rewrite Hl in Hl2.
  assert (Hrows := f_equal (fun o => match o with Some (DF x) => rows x | _ => [] end) Hl2).
  cbn beta iota in Hrows. cbn [origin] in Hrows.
  rewrite date_mask_rows in Hrows. rewrite Hrows. intros Hin.
  apply list_elem_of_filter in Hin. destruct Hin as [_ Hin].
  cbn [stale_frame rows] in Hin. apply elem_of_replicate in Hin.
  destruct Hin as [Hin _]. discriminate Hin.
Qed.

Lemma new_row_selected p :
  (p < large)%nat -> new_row ∈ filter (fun r => acq_date r = ex_day) (rows (new_frame p)).
Proof.
  intros Hp. apply list_elem_of_filter. split; [reflexivity |].
  apply new_row_in_new_frame, Hp.
Qed.

(** A call in another mode on the second frame is not answered from
    the entry of the first. *)
Lemma fresh_answer p mode mode' ds de dx ds' de' l1 s1 :
  (p < large)%nat -> mode' <> "range" -> mode <> mode' ->
  filter_by_date 1%nat mode ds de dx (two_frames (G := G) p) = Ok (l1, s1) ->
  forall l s2 d2,
    filter_by_date 2%nat mode' ds' de' ex_day s1 = Ok (l, s2) ->
    s2 !! l = Some (DF d2) ->
    new_row ∈ rows d2.
Proof.
  intros Hp Hm' Hne Hrun1 l s2 d2 Hrun2 Hl.
  assert (Hc : "acq_date" ∈ ex_columns) by compute_done.
  assert (H1 : two_frames (G := G) p !! 1%nat = Some (DF stale_frame))
    by apply state_lookup_insert_eq.
  assert (H2 : two_frames (G := G) p !! 2%nat = Some (DF (new_frame p))).
  { unfold two_frames. rewrite state_lookup_insert_ne by discriminate.
    apply state_lookup_insert_eq. }
  destruct (filter_by_date_miss (two_frames p) 1%nat stale_frame mode ds de dx H1 Hc eq_refl)
    as (s1' & Hrun1' & _ & Hsame & Hcache).
  rewrite Hrun1 in Hrun1'. injection Hrun1' as -> <-.
  change (cache s1 = [mkEntry stale_frame mode ds de dx]) in Hcache.
  assert (H2' : s1 !! 2%nat = Some (DF (new_frame p))).
  { rewrite Hsame by exact (used_not_fresh _ _ _ H2). exact H2. }
  assert (Hget : cache_get (new_frame p) mode' ds' de' ex_day (cache s1) = None).
  { rewrite Hcache. unfold cache_get.
    rewrite filter_cons_False; [reflexivity |].
    intros Hk. apply entry_key_inv in Hk. cbn [entry_mode] in Hk. tauto. }
  destruct (filter_by_date_miss s1 2%nat (new_frame p) mode' ds' de' ex_day H2' Hc Hget)
    as (s2' & Hrun2' & Hl2 & _).
  rewrite Hrun2 in Hrun2'. injection Hrun2' as -> ->.
  rewrite Hl in Hl2.
  assert (Hrows := f_equal (fun o => match o with Some (DF x) => rows x | _ => [] end) Hl2).
  cbn beta iota in Hrows. rewrite date_mask_rows in Hrows. rewrite Hrows.
  apply list_elem_of_filter. split; [| apply new_row_in_new_frame, Hp].
  unfold in_criteria. apply String.eqb_neq in Hm'. rewrite Hm'. reflexivity.
Qed.

(** ** Normalisation *)

Lemma Qlt_bool_true a b : Qlt_bool a b = true <-> (a < b)%Q.
Proof.
  unfold Qlt_bool. rewrite negb_true_iff. split.
  - intros E. apply Qnot_le_lt. intros Hle. apply Qle_bool_iff in Hle. congruence.
  - intros Hlt. destruct (Qle_bool b a) eqn:E; [| reflexivity].
    apply Qle_bool_iff in E. lra.
Qed.

Lemma Qlt_bool_false a b : Qlt_bool a b = false <-> (b <= a)%Q.
Proof. unfold Qlt_bool. rewrite negb_false_iff. apply Qle_bool_iff. Qed.

(** The nested [max] and [min] bound the intensity to the interval. *)
Lemma py_clamp b :
  (py_max min_b (py_min b max_b) == clamp b 250 400)%Q
  /\ (min_b <= py_max min_b (py_min b max_b) <= max_b)%Q.
Proof.
  unfold py_max, py_min, clamp, min_b, max_b.
  destruct (Qlt_bool 400 b) eqn:E1.
  - apply Qlt_bool_true in E1.
    destruct (Qlt_bool 250 400) eqn:E2; [| apply Qlt_bool_false in E2; lra].
    destruct (Qlt_le_dec b 250); [lra |].
    destruct (Qlt_le_dec 400 b); lra.
  - apply Qlt_bool_false in E1.
    destruct (Qlt_bool 250 b) eqn:E2.
    + apply Qlt_bool_true in E2.
      destruct (Qlt_le_dec b 250); [lra |].
      destruct (Qlt_le_dec 400 b); lra.
    + apply Qlt_bool_false in E2.
      destruct (Qlt_le_dec b 250); [lra |].
      destruct (Qlt_le_dec 400 b); lra.
Qed.

Lemma weight_bounds c :
  (min_b <= c <= max_b)%Q -> (0 <= (c - min_b) / (max_b - min_b) <= 1)%Q.
Proof.
  unfold min_b, max_b. intros [Hlo Hhi].
  assert (Hpos : (0 < 400 - 250)%Q) by reflexivity.
  split.
  - apply Qle_shift_div_l; [exact Hpos | lra].
  - apply Qle_shift_div_r; [exact Hpos | lra].
Qed.

Lemma normalize_spec hd :
  Forall2 (fun x e => e.1 = x.1
                      /\ (e.2 == (clamp x.2 250 400 - 250) / (400 - 250))%Q
                      /\ (0 <= e.2 <= 1)%Q)
    hd (normalize hd).
Proof.
  unfold normalize. apply Forall2_fmap_r, Forall_Forall2_diag, Forall_forall.
  intros [[lat lon] b] _. cbn [fst snd].
  destruct (py_clamp b) as [Heq Hb]. split; [reflexivity |]. split.
  - rewrite Heq. reflexivity.
  - apply weight_bounds, Hb.
Qed.

Section Run.

(** A call of [generate_heatmap] on a store with the boundary frame
    [g] at [gdf], in which the date filter returns the frame [dfl]. *)
Variables (s : state G) (gdf df_all : loc) (g : list (Region G)).
Variables (mode : string) (ds de dx : date).
Variables (l : loc) (s1 : state G) (dfl : DataFrame).
Hypothesis Hgdf : s !! gdf = Some (GDF g).
Hypothesis Hfilter : filter_by_date df_all mode ds de dx s = Ok (l, s1).
Hypothesis Hfiltered : s1 !! l = Some (DF dfl).

(** C1, as amended. Every region of the boundary frame appears exactly
    once, in its place, in the province layer of the map, with the
    number of rows of the spatial join that carry its name as its count,
    which is 0 when no detection is within a region of that name.  The
    returned table has one row for each name that occurs in the join,
    with that number, and no row for the other regions. *)
Theorem generate_heatmap_left_join :
  exists mymap table s',
    generate_heatmap mode ds de dx gdf df_all s = Ok ((mymap, table), s')
    /\ region <$> province_layer mymap = g
    /\ (forall c, c ∈ province_layer mymap ->
          heat_spot_count c
          = Some (Z.of_nat (occurrences (ADM1_TH (region c)) (joined_names dfl g))))
    /\ (forall c, c ∈ province_layer mymap ->
          (forall p r, p ∈ heat_points_of dfl -> r ∈ g ->
             ADM1_TH r = ADM1_TH (region c) -> within p (geometry r) = false) ->
          heat_spot_count c = Some 0%Z)
    /\ NoDup table.*1
    /\ (forall k c, (k, c) ∈ table
          <-> c = Z.of_nat (occurrences k (joined_names dfl g)) /\ (0 < c)%Z).
Proof.
  destruct (generate_heatmap_run _ _ _ _ _ _ _ _ _ _ _ Hgdf Hfilter Hfiltered)
    as (s' & Hrun & _).
  eexists _, _, s'. split; [exact Hrun |].
  rewrite province_layer_drawn, (merge_fillna _ _ (value_counts_NoDup _)).
  assert (Hcount : forall c,
    c ∈ (fun r => mkCounted r (Some (lookup_count (ADM1_TH r)
                                       (value_counts (joined_names dfl g))))) <$> g ->
    heat_spot_count c
    = Some (Z.of_nat (occurrences (ADM1_TH (region c)) (joined_names dfl g)))).
  { intros c Hc. apply list_elem_of_fmap in Hc. destruct Hc as (r & -> & _).
    cbn [heat_spot_count region]. rewrite value_counts_lookup_count. reflexivity. }
  split; [| split; [exact Hcount | split; [| split]]].
  - rewrite <- list_fmap_compose. apply list_fmap_id.
  - intros c Hc Hout. rewrite (Hcount c Hc).
    destruct (occurrences (ADM1_TH (region c)) (joined_names dfl g)) eqn:E; [reflexivity |].
    assert (Hin : Some (ADM1_TH (region c)) ∈ joined_names dfl g).
    { apply occurrences_pos. rewrite E. lia. }
    apply elem_of_joined_names in Hin. destruct Hin as (p & r & Hp & Hr & Hk & Hw).
    rewrite (Hout p r Hp Hr Hk) in Hw. discriminate.
  - rewrite sort_values_desc_Permutation. apply value_counts_NoDup.
  - intros k c. rewrite sort_values_desc_Permutation.
    rewrite (elem_of_lookup_count _ _ _ (value_counts_NoDup _)).
    rewrite value_counts_keys, value_counts_lookup_count, occurrences_pos.
    split; intros [H1 H2]; split; auto; lia.
Qed.

(** C2. When no point is within two regions, the counts of the returned
    table and the number of filtered detections assigned to no region
    add up to the number of filtered detections. *)
Theorem generate_heatmap_counts_partition :
  pairwise_disjoint g ->
  exists mymap table s',
    generate_heatmap mode ds de dx gdf df_all s = Ok ((mymap, table), s')
    /\ (total table
        + Z.of_nat (unmatched_count (joined_of dfl g) (length (rows dfl)))
        = Z.of_nat (length (rows dfl)))%Z.
Proof.
  intros Hdisj.
  destruct (generate_heatmap_run _ _ _ _ _ _ _ _ _ _ _ Hgdf Hfilter Hfiltered)
    as (s' & Hrun & _).
  eexists _, _, s'. split; [exact Hrun |].
  rewrite (total_Permutation _ _ (sort_values_desc_Permutation _)).
  unfold value_counts.
  rewrite (total_Permutation _ _ (sort_values_desc_Permutation _)), tally_total.
  rewrite <- Nat2Z.inj_add. f_equal.
  unfold joined_names, unmatched_count, joined_of, sjoin.
  destruct (has_column "latitude" dfl && has_column "longitude" dfl) eqn:Hcols.
  - assert (Hlen : length (heat_points_of dfl) = length (rows dfl)).
    { unfold heat_points_of, heat_data_of. rewrite Hcols, !length_fmap. reflexivity. }
    rewrite <- Hlen at 1 2.
    apply sjoin_from_partition. intros p _. apply pairwise_disjoint_matching, Hdisj.
  - assert (Hnone : heat_points_of dfl = []).
    { unfold heat_points_of, heat_data_of. rewrite Hcols. reflexivity. }
    rewrite Hnone. cbn [sjoin_from fmap list_fmap omap list_omap length].
    rewrite (filter_iff_elem_of _ (fun _ => True)).
    + rewrite Nat.add_0_l. clear. generalize 0%nat.
      induction (length (rows dfl)) as [| n IH]; intros i; [reflexivity |].
      cbn [seq]. rewrite filter_cons_True by exact I. cbn [length]. f_equal. apply IH.
    + intros k _. unfold assigned. rewrite Exists_nil. tauto.
Qed.

(** C5. When the filtered frame is empty or has no latitude or no
    longitude column, the call returns without error; every region has
    count 0 in the province layer, the returned table has no row, and
    the map has no heat layer. *)
Theorem generate_heatmap_no_points :
  empty dfl = true \/ "latitude" ∉ columns dfl \/ "longitude" ∉ columns dfl ->
  exists mymap table s',
    generate_heatmap mode ds de dx gdf df_all s = Ok ((mymap, table), s')
    /\ province_layer mymap = (fun r => mkCounted r (Some 0%Z)) <$> g
    /\ table = []
    /\ layers mymap = [GeoJson (province_layer mymap)]
    /\ heat_layer mymap = [].
Proof.
  intros Hskip.
  destruct (generate_heatmap_run _ _ _ _ _ _ _ _ _ _ _ Hgdf Hfilter Hfiltered)
    as (s' & Hrun & _).
  assert (Hnone : heat_data_of dfl = []).
  { unfold heat_data_of, empty, has_column in *.
    destruct Hskip as [He | [Hc | Hc]].
    - destruct (rows dfl); [| discriminate].
      destruct (_ && _); reflexivity.
    - rewrite (bool_decide_eq_false_2 _ Hc). reflexivity.
    - rewrite (bool_decide_eq_false_2 _ Hc), andb_false_r. reflexivity. }
  assert (Hnames : joined_names dfl g = []).
  { unfold joined_names, joined_of, heat_points_of. rewrite Hnone. reflexivity. }
  rewrite Hnames, Hnone, value_counts_nil, sort_values_desc_nil in Hrun.
  eexists _, _, s'. split; [exact Hrun |].
  rewrite province_layer_drawn, heat_layer_drawn.
  rewrite (merge_fillna g [] (NoDup_nil_2 (A:=string))).
  repeat split; reflexivity.
Qed.


(** C7. The heat layer holds, for each detection that reaches it, its
    coordinates and the weight (clamp(b, 250, 400) - 250) / (400 - 250)
    of its intensity [b]; every weight lies between 0 and 1; intensity
    300 gives one third and intensity 400 gives 1. *)
Theorem generate_heatmap_weights :
  exists mymap table s',
    generate_heatmap mode ds de dx gdf df_all s = Ok ((mymap, table), s')
    /\ Forall2 (fun x e => e.1 = x.1
                  /\ (e.2 == (clamp x.2 250 400 - 250) / (400 - 250))%Q)
         (heat_data_of dfl) (heat_layer mymap)
    /\ Forall (fun e => (0 <= e.2 <= 1)%Q) (heat_layer mymap)
    /\ (forall lat lon, exists w,
          normalize [(lat, lon, 300%Q)] = [(lat, lon, w)] /\ (w == 1 # 3)%Q)
    /\ (forall lat lon, exists w,
          normalize [(lat, lon, 400%Q)] = [(lat, lon, w)] /\ (w == 1)%Q).
Proof.
  destruct (generate_heatmap_run _ _ _ _ _ _ _ _ _ _ _ Hgdf Hfilter Hfiltered)
    as (s' & Hrun & _).
  eexists _, _, s'. split; [exact Hrun |].
  rewrite heat_layer_drawn.
  assert (Hspec := normalize_spec (heat_data_of dfl)).
  split; [| split; [| split]].
  - eapply Forall2_impl; [exact Hspec |]. cbn beta. tauto.
  - eapply Forall2_Forall_r; [exact Hspec |].
    apply Forall_forall. intros x _ e He. apply He.
  - intros lat lon. eexists. split; reflexivity.
  - intros lat lon. eexists. split; reflexivity.
Qed.


End Run.

(** C8. A call of [generate_heatmap], date filter included, returns
    without error and leaves every object of the store as it was, the
    boundary frame and the detection frame among them: the filtered
    frame and the merged frame that carries the counts are new objects,
    and the two column assignments go to these. *)
Theorem generate_heatmap_preserves_base s gdf df_all g d mode ds de dx :
  s !! gdf = Some (GDF g) -> s !! df_all = Some (DF d) -> "acq_date" ∈ columns d ->
  exists mymap table s',
    generate_heatmap mode ds de dx gdf df_all s = Ok ((mymap, table), s')
    /\ s' !! gdf = Some (GDF g)
    /\ s' !! df_all = Some (DF d)
    /\ (forall k o, s !! k = Some o -> s' !! k = Some o)
    /\ (exists k, s !! k = None /\ s' !! k = Some (Merged (province_layer mymap)))
    /\ (exists k s1, filter_by_date df_all mode ds de dx s = Ok (k, s1)
          /\ s !! k = None
          /\ forall k' o, s !! k' = Some o -> s1 !! k' = Some o).
Proof.
  intros Hg Hd Hc.
  destruct (filter_by_date_dated s df_all d mode ds de dx Hd Hc) as (l & s1 & Hrun).
  destruct (filter_by_date_inv _ _ _ _ _ _ _ _ Hrun)
    as (d0 & dfl & _ & _ & _ & Hfresh & Hl & _ & Hsame & _).
  destruct (generate_heatmap_run _ _ _ _ _ _ _ _ _ _ _ Hg Hrun Hl)
    as (s' & Hgen & Hkeep & (k & Hk & Hk')).
  eexists _, _, s'. split; [exact Hgen |].
  split; [apply Hkeep, Hg |]. split; [apply Hkeep, Hd |]. split; [exact Hkeep |].
  split.
  - exists k. rewrite province_layer_drawn. auto.
  - exists l, s1. split; [exact Hrun |]. split; [exact Hfresh |].
    intros k' o Hk2. rewrite Hsame; [exact Hk2 |]. congruence.
Qed.

(** ** Further properties of the date filter *)

Lemma boolean_index_date_mask d mode ds de dx :
  boolean_index d (date_mask mode ds de dx (acq_date <$> rows d)) = filtered d mode ds de dx.
Proof.
  assert (Hrows := date_mask_rows d mode ds de dx).
  unfold boolean_index, filtered in *. cbn [rows] in Hrows. rewrite Hrows. reflexivity.
Qed.

(** X1. A detection frame without an [acq_date] column makes
    [filter_by_date] raise [KeyError] in every mode, and
    [generate_heatmap] raises the same error. *)
Theorem filter_by_date_missing_column s df d mode ds de dx gdf :
  s !! df = Some (DF d) -> "acq_date" ∉ columns d ->
  filter_by_date df mode ds de dx s = Raise (KeyError "acq_date")
  /\ generate_heatmap mode ds de dx gdf df s = Raise (KeyError "acq_date").
Proof.
  intros Hd Hc.
  assert (Hf : filter_by_date df mode ds de dx s = Raise (KeyError "acq_date")).
  { unfold filter_by_date, bind, read_df. rewrite Hd.
    unfold get_cache. cbn beta iota.
    destruct (cache_get d mode ds de dx (cache s)) as [e |] eqn:Hget.
    - apply cache_get_Some in Hget. destruct Hget as [_ Hkey].
      destruct (entry_key_inv _ _ _ _ _ _ Hkey) as (Hcols & _).
      unfold lift, cached_value.
      rewrite filter_rows_undated by (rewrite Hcols; exact Hc). reflexivity.
    - unfold lift. rewrite (filter_rows_undated _ _ _ _ _ Hc). reflexivity. }
  split; [exact Hf |].
  unfold generate_heatmap. unfold bind at 1. rewrite Hf. reflexivity.
Qed.

(** X2. When the cache does not answer the call with the rows of
    another frame, the frame [filter_by_date] returns has the columns
    of its input, and its rows are the rows of the input that meet the
    criteria, each as often as the input has it and in the order of the
    input. *)
Theorem filter_by_date_sublist s df d mode ds de dx :
  s !! df = Some (DF d) -> "acq_date" ∈ columns d ->
  cache_agrees s d mode ds de dx ->
  exists l s1 d1,
    filter_by_date df mode ds de dx s = Ok (l, s1)
    /\ s1 !! l = Some (DF d1)
    /\ columns d1 = columns d
    /\ rows d1 = filter (in_criteria mode ds de dx) (rows d)
    /\ rows d1 `sublist_of` rows d
    /\ (forall r, r ∈ rows d1 <-> r ∈ rows d /\ in_criteria mode ds de dx r).
Proof.
  intros Hd Hc Hag.
  destruct (filter_by_date_run _ _ _ _ _ _ _ Hd Hc Hag) as (s1 & Hrun & Hl & _).
  eexists _, s1, _. split; [exact Hrun |]. split; [exact Hl |].
  split; [reflexivity |]. rewrite date_mask_rows.
  split; [reflexivity |]. split; [apply sublist_filter |].
  intros r. rewrite list_elem_of_filter. tauto.
Qed.

Lemma date_le_lt_trans a b c : date_le a b -> date_le b c -> date_lt c a -> False.
Proof.
  unfold date_le, date_lt. intros [Hab | ->] [Hbc | ->] Hca; lia.
Qed.

Lemma inverted_range_empty d ds de dx :
  date_lt de ds ->
  boolean_index d (date_mask "range" ds de dx (acq_date <$> rows d))
  = {| columns := columns d; rows := [] |}.
Proof.
  intros Hlt. rewrite boolean_index_date_mask. unfold filtered. f_equal.
  apply filter_nil_all. intros r _ [H1 H2].
  exact (date_le_lt_trans _ _ _ H1 H2 Hlt).
Qed.

(** X3. In range mode with the end before the start no date lies in
    the range: the call returns an empty frame, not an error. *)
Theorem filter_by_date_inverted_range s df d ds de dx :
  s !! df = Some (DF d) -> "acq_date" ∈ columns d -> date_lt de ds ->
  exists l s1,
    filter_by_date df "range" ds de dx s = Ok (l, s1)
    /\ s1 !! l = Some (DF {| columns := columns d; rows := [] |}).
Proof.
  intros Hd Hc Hlt.
  destruct (cache_get d "range" ds de dx (cache s)) as [e |] eqn:Hget.
  - destruct (filter_by_date_hit _ _ _ _ _ _ _ _ Hd Hc Hget) as (s1 & Hrun & Hl & _).
    apply cache_get_Some in Hget. destruct Hget as [_ Hkey].
    destruct (entry_key_inv _ _ _ _ _ _ Hkey) as (Hcols & _).
    rewrite (inverted_range_empty _ _ _ _ Hlt), Hcols in Hl.
    eexists _, s1. split; [exact Hrun | exact Hl].
  - destruct (filter_by_date_miss _ _ _ _ _ _ _ Hd Hc Hget) as (s1 & Hrun & Hl & _).
    rewrite (inverted_range_empty _ _ _ _ Hlt) in Hl.
    eexists _, s1. split; [exact Hrun | exact Hl].
Qed.

(** ** Two calls in a row *)

Lemma filter_length_eq {A} (P : A -> Prop) `{!forall x, Decision (P x)} (l : list A) :
  length (filter P l) = length l -> filter P l = l.
Proof.
  induction l as [| a l IH]; intros Hlen; [reflexivity |].
  rewrite filter_cons in *. destruct (decide (P a)).
  - cbn [length] in Hlen. f_equal. apply IH. lia.
  - assert (Hle := length_filter P l). cbn [length] in Hlen. lia.
Qed.

(** A filtered frame with the key of its frame is that frame. *)
Lemma filtered_key d mode ds de dx :
  frame_key d = frame_key (filtered d mode ds de dx) -> d = filtered d mode ds de dx.
Proof.
  unfold frame_key. intros [= Hlen _]. unfold filtered in *. cbn [rows] in Hlen.
  symmetry in Hlen. apply filter_length_eq in Hlen. rewrite Hlen.
  destruct d. reflexivity.
Qed.

(** The cache after a call: the entries it had, and at most the entry
    of the call. *)
Lemma cache_agrees_after s df d mode ds de dx l s1 d' mode' ds' de' dx' :
  s !! df = Some (DF d) ->
  filter_by_date df mode ds de dx s = Ok (l, s1) ->
  cache_agrees s d' mode' ds' de' dx' ->
  (frame_key d = frame_key d' -> d = d') ->
  cache_agrees s1 d' mode' ds' de' dx'.
Proof.
  intros Hd Hrun Hag Hkey e He Hk.
  destruct (filter_by_date_inv _ _ _ _ _ _ _ _ Hrun)
    as (d0 & dfl & Hd0 & _ & _ & _ & _ & _ & _ & Hcache).
  rewrite Hd in Hd0. injection Hd0 as <-.
  destruct Hcache as [Hcache | Hcache]; rewrite Hcache in He.
  - exact (Hag e He Hk).
  - apply elem_of_app in He. destruct He as [He | He]; [exact (Hag e He Hk) |].
    apply list_elem_of_singleton in He. subst e. cbn [origin]. apply Hkey.
    unfold entry_key, call_key in Hk. cbn [origin] in Hk. congruence.
Qed.

(** A call leaves an entry under its key. *)
Lemma filter_by_date_cached s df d mode ds de dx l s1 :
  s !! df = Some (DF d) ->
  filter_by_date df mode ds de dx s = Ok (l, s1) ->
  is_Some (cache_get d mode ds de dx (cache s1)).
Proof.
  intros Hd Hrun.
  destruct (filter_by_date_inv _ _ _ _ _ _ _ _ Hrun)
    as (d0 & dfl & Hd0 & Hc & _).
  rewrite Hd in Hd0. injection Hd0 as <-.
  destruct (cache_get d mode ds de dx (cache s)) as [e |] eqn:Hget.
  - destruct (filter_by_date_hit _ _ _ _ _ _ _ _ Hd Hc Hget) as (s1' & Hrun' & _ & _ & Hcache).
    rewrite Hrun in Hrun'. injection Hrun' as _ <-. rewrite Hcache, Hget. eauto.
  - destruct (filter_by_date_miss _ _ _ _ _ _ _ Hd Hc Hget) as (s1' & Hrun' & _ & _ & Hcache).
    rewrite Hrun in Hrun'. injection Hrun' as _ <-. rewrite Hcache.
    unfold cache_get in *. rewrite filter_app.
    destruct (filter _ (cache s)) as [| e t]; [| discriminate].
    rewrite filter_cons_True by reflexivity. cbn. eauto.
Qed.

(** X4. When the cache does not answer either call with the rows of
    another frame, filtering the frame returned by one call again keeps
    exactly the rows that meet both criteria, so the order of two
    filters does not matter for the rows kept; the first frame is left
    as it was. *)
Theorem filter_by_date_compose s df d m1 a1 b1 x1 m2 a2 b2 x2 :
  s !! df = Some (DF d) -> "acq_date" ∈ columns d ->
  cache_agrees s d m1 a1 b1 x1 ->
  cache_agrees s (filtered d m1 a1 b1 x1) m2 a2 b2 x2 ->
  exists l1 s1 l2 s2 d2,
    filter_by_date df m1 a1 b1 x1 s = Ok (l1, s1)
    /\ filter_by_date l1 m2 a2 b2 x2 s1 = Ok (l2, s2)
    /\ s2 !! l2 = Some (DF d2)
    /\ columns d2 = columns d
    /\ rows d2 = filter (fun r => in_criteria m1 a1 b1 x1 r /\ in_criteria m2 a2 b2 x2 r)
                   (rows d)
    /\ s2 !! df = Some (DF d).
Proof.
  intros Hd Hc Hag1 Hag2.
  destruct (filter_by_date_run _ _ _ _ _ _ _ Hd Hc Hag1) as (s1 & Hrun1 & Hl1 & Hsame1 & _).
  rewrite boolean_index_date_mask in Hl1.
  set (d1 := filtered d m1 a1 b1 x1) in *.
  set (l1 := fresh (dom s)) in *.
  assert (Hc1 : "acq_date" ∈ columns d1) by exact Hc.
  assert (Hag2' : cache_agrees s1 d1 m2 a2 b2 x2).
  { apply (cache_agrees_after _ _ _ _ _ _ _ _ _ _ _ _ _ _ Hd Hrun1 Hag2).
    apply filtered_key. }
  destruct (filter_by_date_run _ _ _ _ _ _ _ Hl1 Hc1 Hag2') as (s2 & Hrun2 & Hl2 & Hsame2 & _).
  rewrite boolean_index_date_mask in Hl2.
  eexists l1, s1, _, s2, _. split; [exact Hrun1 |]. split; [exact Hrun2 |].
  split; [exact Hl2 |]. split; [reflexivity |]. split.
  - unfold d1, filtered. cbn [rows]. rewrite list_filter_filter.
    apply list_filter_iff. intros r. tauto.
  - assert (Hs1 : s1 !! df = Some (DF d)).
    { rewrite Hsame1 by exact (used_not_fresh _ _ _ Hd). exact Hd. }
    rewrite Hsame2 by exact (used_not_fresh _ _ _ Hs1). exact Hs1.
Qed.

(** X5. Filtering is idempotent: when the cache does not answer either
    call with the rows of another frame, a second call with the same
    arguments on the returned frame returns a frame equal to it. *)
Theorem filter_by_date_idempotent s df d mode ds de dx :
  s !! df = Some (DF d) -> "acq_date" ∈ columns d ->
  cache_agrees s d mode ds de dx ->
  cache_agrees s (filtered d mode ds de dx) mode ds de dx ->
  exists l1 s1 d1 l2 s2,
    filter_by_date df mode ds de dx s = Ok (l1, s1)
    /\ s1 !! l1 = Some (DF d1)
    /\ filter_by_date l1 mode ds de dx s1 = Ok (l2, s2)
    /\ s2 !! l2 = Some (DF d1).
Proof.
  intros Hd Hc Hag1 Hag2.
  destruct (filter_by_date_run _ _ _ _ _ _ _ Hd Hc Hag1) as (s1 & Hrun1 & Hl1 & _).
  rewrite boolean_index_date_mask in Hl1.
  set (d1 := filtered d mode ds de dx) in *.
  assert (Hc1 : "acq_date" ∈ columns d1) by exact Hc.
  assert (Hag2' : cache_agrees s1 d1 mode ds de dx).
  { apply (cache_agrees_after _ _ _ _ _ _ _ _ _ _ _ _ _ _ Hd Hrun1 Hag2).
    apply filtered_key. }
  destruct (filter_by_date_run _ _ _ _ _ _ _ Hl1 Hc1 Hag2') as (s2 & Hrun2 & Hl2 & _).
  rewrite boolean_index_date_mask in Hl2.
  eexists _, s1, d1, _, s2. split; [exact Hrun1 |]. split; [exact Hl1 |].
  split; [exact Hrun2 |]. rewrite Hl2. do 2 f_equal.
  unfold d1, filtered. cbn [rows columns]. f_equal.
  apply list_filter_filter_l. tauto.
Qed.

(** ** Further properties of the normalisation *)

Lemma normalize_lookup hd i x :
  hd !! i = Some x -> normalize hd !! i = Some (x.1, weight_of x.2).
Proof.
  intros Hx. unfold normalize. rewrite list_lookup_fmap, Hx.
  destruct x as [[lat lon] b]. reflexivity.
Qed.

Lemma weight_of_clamp b : (weight_of b == (clamp b 250 400 - 250) * (1 # 150))%Q.
Proof.
  destruct (py_clamp b) as [Heq _]. unfold weight_of. rewrite Heq.
  unfold min_b, max_b. field.
Qed.

Lemma clamp_monotone a b : (a <= b)%Q -> (clamp a 250 400 <= clamp b 250 400)%Q.
Proof.
  intros Hab. unfold clamp.
  destruct (Qlt_le_dec a 250), (Qlt_le_dec b 250), (Qlt_le_dec 400 a), (Qlt_le_dec 400 b);
    lra.
Qed.

Lemma clamp_bounds b : (250 <= clamp b 250 400 <= 400)%Q.
Proof.
  unfold clamp. destruct (Qlt_le_dec b 250); [lra |].
  destruct (Qlt_le_dec 400 b); lra.
Qed.

Lemma clamp_fixed c : (250 <= c <= 400)%Q -> (clamp c 250 400 == c)%Q.
Proof.
  intros Hc. unfold clamp. destruct (Qlt_le_dec c 250); [lra |].
  destruct (Qlt_le_dec 400 c); lra.
Qed.

(** X6. The weight grows with the intensity: of two detections of a
    heat-data list, the one with the larger intensity never gets the
    smaller weight. *)
Theorem normalize_monotone hd i j x y ex ey :
  hd !! i = Some x -> hd !! j = Some y ->
  normalize hd !! i = Some ex -> normalize hd !! j = Some ey ->
  (x.2 <= y.2)%Q -> (ex.2 <= ey.2)%Q.
Proof.
  intros Hx Hy Hex Hey Hle.
  rewrite (normalize_lookup _ _ _ Hx) in Hex. injection Hex as <-.
  rewrite (normalize_lookup _ _ _ Hy) in Hey. injection Hey as <-.
  cbn [snd]. rewrite !weight_of_clamp.
  assert (Hc := clamp_monotone _ _ Hle). lra.
Qed.

(** X7. The weight saturates at the bounds: an intensity of at most 250
    gives weight 0, one of at least 400 gives weight 1, and an intensity
    strictly between gives (b - 250) / 150, strictly between 0 and 1;
    the coordinates are kept. *)
Theorem normalize_saturates hd i x e :
  hd !! i = Some x -> normalize hd !! i = Some e ->
  e.1 = x.1
  /\ ((x.2 <= 250)%Q -> (e.2 == 0)%Q)
  /\ ((400 <= x.2)%Q -> (e.2 == 1)%Q)
  /\ ((250 < x.2 < 400)%Q -> (e.2 == (x.2 - 250) / 150)%Q /\ (0 < e.2 < 1)%Q).
Proof.
  intros Hx He. rewrite (normalize_lookup _ _ _ Hx) in He. injection He as <-.
  cbn [fst snd]. split; [reflexivity |].
  assert (Hw := weight_of_clamp x.2). unfold clamp in Hw.
  split; [| split].
  - intros Hlo. destruct (Qlt_le_dec x.2 250); [lra |].
    destruct (Qlt_le_dec 400 x.2); lra.
  - intros Hhi. destruct (Qlt_le_dec x.2 250); [lra |].
    destruct (Qlt_le_dec 400 x.2); lra.
  - intros [Hlo Hhi]. destruct (Qlt_le_dec x.2 250); [lra |].
    destruct (Qlt_le_dec 400 x.2); [lra |].
    assert (Hd : ((x.2 - 250) / 150 == (x.2 - 250) * (1 # 150))%Q) by field.
    split; [rewrite Hd; exact Hw | lra].
Qed.

(** X8. Bounding the intensities to the interval from 250 to 400
    beforehand does not change any weight. *)
Theorem normalize_reclamp hd :
  Forall2 (fun e e' => e.1 = e'.1 /\ (e.2 == e'.2)%Q)
    (normalize ((fun x => (x.1, clamp x.2 250 400)) <$> hd)) (normalize hd).
Proof.
  unfold normalize. rewrite <- list_fmap_compose.
  apply Forall2_fmap, Forall_Forall2_diag, Forall_forall.
  intros [[lat lon] b] _. cbn. split; [reflexivity |].
  change ((weight_of (clamp b 250 400) == weight_of b)%Q).
  rewrite !weight_of_clamp.
  rewrite (clamp_fixed _ (clamp_bounds b)). reflexivity.
Qed.

(** ** Further properties of the aggregation *)

Lemma heat_points_of_rows d :
  heat_points_of d
  = if has_column "latitude" d && has_column "longitude" d
    then point_of <$> rows d else [].
Proof.
  unfold heat_points_of, heat_data_of.
  destruct (has_column "latitude" d && has_column "longitude" d); [| reflexivity].
  rewrite <- list_fmap_compose. reflexivity.
Qed.

Lemma length_omap_names (ms : list (Region G)) :
  length (omap id ((fun r => Some (ADM1_TH r)) <$> ms)) = length ms.
Proof.
  induction ms as [| r ms IH]; [reflexivity |].
  rewrite fmap_cons. cbn [omap list_omap id]. cbn [length]. f_equal. exact IH.
Qed.

Lemma length_omap_names_of_point p g :
  length (omap id (names_of_point p g)) = length (matching p g).
Proof.
  unfold names_of_point. destruct (matching p g) as [| r ms] eqn:E; [reflexivity |].
  apply length_omap_names.
Qed.

Lemma length_omap_joined pts g :
  length (omap id (joined_ADM1_TH <$> sjoin pts g)) = containments pts g.
Proof.
  unfold sjoin, containments. rewrite sjoin_from_names.
  induction pts as [| p pts IH]; [reflexivity |].
  rewrite bind_cons, omap_app, length_app, length_omap_names_of_point, IH.
  reflexivity.
Qed.

Lemma occurrences_app k col col' :
  occurrences k (col ++ col') = (occurrences k col + occurrences k col')%nat.
Proof. unfold occurrences. rewrite filter_app, length_app. reflexivity. Qed.

Lemma occurrences_names k (ms : list (Region G)) :
  occurrences k ((fun r => Some (ADM1_TH r)) <$> ms)
  = length (filter (fun r => ADM1_TH r = k) ms).
Proof.
  unfold occurrences. induction ms as [| r ms IH]; [reflexivity |].
  rewrite fmap_cons, !filter_cons.
  destruct (decide (ADM1_TH r = k)) as [Hk | Hk].
  - rewrite decide_True by congruence. cbn [length]. f_equal. exact IH.
  - rewrite decide_False by congruence. exact IH.
Qed.

Lemma occurrences_names_of_point k p g :
  occurrences k (names_of_point p g)
  = length (filter (fun r => ADM1_TH r = k /\ within p (geometry r) = true) g).
Proof.
  rewrite <- list_filter_filter. fold (matching p g).
  unfold names_of_point. destruct (matching p g) as [| r ms] eqn:E.
  - reflexivity.
  - apply occurrences_names.
Qed.

(** With distinct names a region is the only one of its name. *)
Lemma length_filter_named g r0 (P : Region G -> Prop) `{!forall r, Decision (P r)} :
  NoDup (ADM1_TH <$> g) -> r0 ∈ g ->
  length (filter (fun r => ADM1_TH r = ADM1_TH r0 /\ P r) g)
  = if decide (P r0) then 1%nat else 0%nat.
Proof.
  induction g as [| r g IH]; intros Hnd Hin.
  - apply elem_of_nil in Hin. destruct Hin.
  - rewrite fmap_cons in Hnd. apply NoDup_cons in Hnd. destruct Hnd as [Hnin Hnd].
    apply elem_of_cons in Hin. destruct Hin as [-> | Hin].
    + assert (Hrest : filter (fun r' => ADM1_TH r' = ADM1_TH r /\ P r') g = []).
      { apply filter_nil_all. intros r' Hr' [Hname _]. apply Hnin.
        rewrite <- Hname. apply list_elem_of_fmap_2, Hr'. }
      rewrite filter_cons, Hrest.
      destruct (decide (P r)) as [HP | HP].
      * rewrite decide_True by auto. reflexivity.
      * rewrite decide_False by tauto. reflexivity.
    + rewrite filter_cons_False.
      * apply IH; assumption.
      * intros [Hname _]. apply Hnin. rewrite Hname.
        apply list_elem_of_fmap_2, Hin.
Qed.

Lemma occurrences_joined_rows g r0 (rs : list Row) :
  NoDup (ADM1_TH <$> g) -> r0 ∈ g ->
  occurrences (ADM1_TH r0)
    (joined_ADM1_TH <$> sjoin (point_of <$> rs) g)
  = length (filter (fun r => within (point_of r) (geometry r0) = true) rs).
Proof.
  intros Hnd Hin. unfold sjoin. rewrite sjoin_from_names.
  induction rs as [| r rs IH]; [reflexivity |].
  rewrite fmap_cons, bind_cons, occurrences_app, IH, occurrences_names_of_point.
  rewrite (length_filter_named g r0 (fun r' => within (point_of r) (geometry r') = true)
             Hnd Hin).
  rewrite filter_cons.
  destruct (decide (within (point_of r) (geometry r0) = true)); reflexivity.
Qed.

Section RunMore.

Variables (s : state G) (gdf df_all : loc) (g : list (Region G)).
Variables (mode : string) (ds de dx : date).
Variables (l : loc) (s1 : state G) (dfl : DataFrame).
Hypothesis Hgdf : s !! gdf = Some (GDF g).
Hypothesis Hfilter : filter_by_date df_all mode ds de dx s = Ok (l, s1).
Hypothesis Hfiltered : s1 !! l = Some (DF dfl).

(** X9. Whatever the regions, the counts of the returned table add up
    to the number of (detection, region) pairs with the detection
    within the region: a detection within two overlapping regions is
    counted in both. *)
Theorem generate_heatmap_total_containments :
  exists mymap table s',
    generate_heatmap mode ds de dx gdf df_all s = Ok ((mymap, table), s')
    /\ total table = Z.of_nat (containments (heat_points_of dfl) g).
Proof.
  destruct (generate_heatmap_run _ _ _ _ _ _ _ _ _ _ _ Hgdf Hfilter Hfiltered)
    as (s' & Hrun & _).
  eexists _, _, s'. split; [exact Hrun |].
  rewrite (total_Permutation _ _ (sort_values_desc_Permutation _)).
  unfold value_counts.
  rewrite (total_Permutation _ _ (sort_values_desc_Permutation _)), tally_total.
  unfold joined_names, joined_of. rewrite length_omap_joined. reflexivity.
Qed.

(** X10. When the region names are distinct and the filtered frame has
    both coordinate columns, the count of each region in the province
    layer is the number of filtered detections whose point
    (longitude, latitude) is within that region. *)
Theorem generate_heatmap_count_within :
  NoDup (ADM1_TH <$> g) ->
  "latitude" ∈ columns dfl -> "longitude" ∈ columns dfl ->
  exists mymap table s',
    generate_heatmap mode ds de dx gdf df_all s = Ok ((mymap, table), s')
    /\ forall c, c ∈ province_layer mymap ->
         heat_spot_count c
         = Some (Z.of_nat (length (filter
                   (fun r => within (point_of r) (geometry (region c)) = true)
                   (rows dfl)))).
Proof.
  intros Hnd Hla Hlo.
  destruct (generate_heatmap_run _ _ _ _ _ _ _ _ _ _ _ Hgdf Hfilter Hfiltered)
    as (s' & Hrun & _).
  eexists _, _, s'. split; [exact Hrun |].
  rewrite province_layer_drawn, (merge_fillna _ _ (value_counts_NoDup _)).
  intros c Hc. apply list_elem_of_fmap in Hc. destruct Hc as (r0 & -> & Hr0).
  cbn [heat_spot_count region]. rewrite value_counts_lookup_count.
  unfold joined_names, joined_of. rewrite heat_points_of_rows.
  apply has_column_true in Hla, Hlo. rewrite Hla, Hlo. cbn [andb].
  rewrite (occurrences_joined_rows _ _ _ Hnd Hr0). reflexivity.
Qed.

(** X11. The returned table names only regions of the boundary frame
    and never has more rows than the boundary frame has regions. *)
Theorem generate_heatmap_table_bounded :
  exists mymap table s',
    generate_heatmap mode ds de dx gdf df_all s = Ok ((mymap, table), s')
    /\ (forall k, k ∈ table.*1 -> k ∈ ADM1_TH <$> g)
    /\ (length table <= length g)%nat.
Proof.
  destruct (generate_heatmap_run _ _ _ _ _ _ _ _ _ _ _ Hgdf Hfilter Hfiltered)
    as (s' & Hrun & _).
  eexists _, _, s'. split; [exact Hrun |].
  set (table := sort_values_desc (value_counts (joined_names dfl g))).
  assert (Hsub : forall k, k ∈ table.*1 -> k ∈ ADM1_TH <$> g).
  { intros k Hk. unfold table in Hk. rewrite sort_values_desc_Permutation in Hk.
    apply value_counts_keys, elem_of_joined_names in Hk.
    destruct Hk as (p & r & _ & Hr & <- & _). apply list_elem_of_fmap_2, Hr. }
  split; [exact Hsub |].
  assert (Hnd : NoDup table.*1).
  { unfold table. rewrite sort_values_desc_Permutation. apply value_counts_NoDup. }
  rewrite <- (length_fmap fst table), <- (length_fmap ADM1_TH g).
  apply submseteq_length, NoDup_submseteq; assumption.
Qed.

(** X12. The table and the map agree: a region whose name has a row in
    the returned table shows that row's count in the province layer, a
    region whose name has no row shows 0, and regions that share a name
    show the same count. *)
Theorem generate_heatmap_table_layer_agree :
  exists mymap table s',
    generate_heatmap mode ds de dx gdf df_all s = Ok ((mymap, table), s')
    /\ (forall c k n, c ∈ province_layer mymap -> (k, n) ∈ table ->
          ADM1_TH (region c) = k -> heat_spot_count c = Some n)
    /\ (forall c, c ∈ province_layer mymap -> ADM1_TH (region c) ∉ table.*1 ->
          heat_spot_count c = Some 0%Z)
    /\ (forall c c', c ∈ province_layer mymap -> c' ∈ province_layer mymap ->
          ADM1_TH (region c) = ADM1_TH (region c') ->
          heat_spot_count c = heat_spot_count c').
Proof.
  destruct (generate_heatmap_run _ _ _ _ _ _ _ _ _ _ _ Hgdf Hfilter Hfiltered)
    as (s' & Hrun & _).
  eexists _, _, s'. split; [exact Hrun |].
  rewrite province_layer_drawn, (merge_fillna _ _ (value_counts_NoDup _)).
  set (pc := value_counts (joined_names dfl g)).
  assert (Hc : forall c,
    c ∈ (fun r => mkCounted r (Some (lookup_count (ADM1_TH r) pc))) <$> g ->
    heat_spot_count c = Some (lookup_count (ADM1_TH (region c)) pc)).
  { intros c Hin. apply list_elem_of_fmap in Hin. destruct Hin as (r & -> & _).
    reflexivity. }
  split; [| split].
  - intros c k n Hin Hkn <-. rewrite (Hc c Hin). f_equal.
    rewrite sort_values_desc_Permutation in Hkn.
    apply (elem_of_lookup_count _ _ _ (value_counts_NoDup _)) in Hkn. apply Hkn.
  - intros c Hin Hk. rewrite (Hc c Hin). f_equal. apply lookup_count_absent.
    rewrite sort_values_desc_Permutation in Hk. exact Hk.
  - intros c c' Hin Hin' Hname. rewrite (Hc c Hin), (Hc c' Hin'), Hname. reflexivity.
Qed.

(** X13. When the filtered frame has both coordinate columns and at
    least one row, the map has the province layer followed by a heat
    layer, and the heat layer has one point per filtered detection, at
    its (latitude, longitude), in the order of the frame, whether or not
    the detection is within a region. *)
Theorem generate_heatmap_heat_layer :
  "latitude" ∈ columns dfl -> "longitude" ∈ columns dfl -> empty dfl = false ->
  exists mymap table s',
    generate_heatmap mode ds de dx gdf df_all s = Ok ((mymap, table), s')
    /\ layers mymap = [GeoJson (province_layer mymap); HeatMap (heat_layer mymap)]
    /\ fst <$> heat_layer mymap = (fun r => (latitude r, longitude r)) <$> rows dfl.
Proof.
  intros Hla Hlo Hne.
  destruct (generate_heatmap_run _ _ _ _ _ _ _ _ _ _ _ Hgdf Hfilter Hfiltered)
    as (s' & Hrun & _).
  eexists _, _, s'. split; [exact Hrun |].
  rewrite province_layer_drawn, heat_layer_drawn.
  assert (Hdata : heat_data_of dfl
                  = (fun r => (latitude r, longitude r, intensity dfl r)) <$> rows dfl).
  { unfold heat_data_of. apply has_column_true in Hla, Hlo. rewrite Hla, Hlo.
    reflexivity. }
  split.
  - unfold drawn. destruct (normalize (heat_data_of dfl)) as [| e n] eqn:E.
    + exfalso. apply (f_equal length) in E. unfold normalize in E.
      rewrite Hdata, !length_fmap in E. unfold empty in Hne.
      destruct (rows dfl); [discriminate | simpl in E; lia].
    + reflexivity.
  - rewrite Hdata. unfold normalize. rewrite <- !list_fmap_compose.
    apply list_fmap_ext. intros _ r _. reflexivity.
Qed.

End RunMore.

Lemma same_but_brightness_acq rs rs' :
  Forall2 same_but_brightness rs rs' -> acq_date <$> rs = acq_date <$> rs'.
Proof.
  induction 1 as [| r r' rs rs' Hr _ IH]; [reflexivity |].
  rewrite !fmap_cons, IH. destruct Hr as [-> _]. reflexivity.
Qed.

Lemma same_but_brightness_select rs rs' :
  Forall2 same_but_brightness rs rs' ->
  forall mask, point_of <$> select rs mask = point_of <$> select rs' mask.
Proof.
  induction 1 as [| r r' rs rs' Hr _ IH]; intros mask; [reflexivity |].
  destruct mask as [| b mask]; [reflexivity |]. cbn [select].
  assert (Hp : point_of r = point_of r').
  { unfold point_of. destruct Hr as (_ & -> & ->). reflexivity. }
  destruct b.
  - rewrite !fmap_cons, Hp, IH. reflexivity.
  - apply IH.
Qed.

(** X14. The counts do not depend on the brightness: when the cache
    answers neither call with the rows of another frame, two detection
    frames whose rows differ at most in the brightness cell, and with
    the same coordinate columns, give the same returned table and the
    same province layer. *)
Theorem generate_heatmap_ignores_brightness s gdf df1 df2 g d1 d2 mode ds de dx :
  s !! gdf = Some (GDF g) ->
  s !! df1 = Some (DF d1) -> s !! df2 = Some (DF d2) ->
  "acq_date" ∈ columns d1 -> "acq_date" ∈ columns d2 ->
  cache_agrees s d1 mode ds de dx -> cache_agrees s d2 mode ds de dx ->
  has_column "latitude" d1 = has_column "latitude" d2 ->
  has_column "longitude" d1 = has_column "longitude" d2 ->
  Forall2 same_but_brightness (rows d1) (rows d2) ->
  exists mymap1 mymap2 table s1' s2',
    generate_heatmap mode ds de dx gdf df1 s = Ok ((mymap1, table), s1')
    /\ generate_heatmap mode ds de dx gdf df2 s = Ok ((mymap2, table), s2')
    /\ province_layer mymap1 = province_layer mymap2.
Proof.
  intros Hg Hd1 Hd2 Hc1 Hc2 Hag1 Hag2 Hla Hlo Hrows.
  destruct (filter_by_date_run _ _ _ _ _ _ _ Hd1 Hc1 Hag1) as (t1 & Hrun1 & Hl1 & _).
  destruct (filter_by_date_run _ _ _ _ _ _ _ Hd2 Hc2 Hag2) as (t2 & Hrun2 & Hl2 & _).
  destruct (generate_heatmap_run _ _ _ _ _ _ _ _ _ _ _ Hg Hrun1 Hl1) as (s1' & Hgen1 & _).
  destruct (generate_heatmap_run _ _ _ _ _ _ _ _ _ _ _ Hg Hrun2 Hl2) as (s2' & Hgen2 & _).
  set (f1 := boolean_index d1 (date_mask mode ds de dx (acq_date <$> rows d1))) in *.
  set (f2 := boolean_index d2 (date_mask mode ds de dx (acq_date <$> rows d2))) in *.
  assert (Hacq := same_but_brightness_acq _ _ Hrows).
  assert (Hsel := same_but_brightness_select _ _ Hrows).
  assert (Hpts : heat_points_of f1 = heat_points_of f2).
  { rewrite !heat_points_of_rows. unfold f1, f2, boolean_index, has_column in *.
    cbn [columns rows]. rewrite Hla, Hlo, Hacq.
    destruct (_ && _); [apply Hsel | reflexivity]. }
  assert (Hnames : joined_names f1 g = joined_names f2 g).
  { unfold joined_names, joined_of. rewrite Hpts. reflexivity. }
  rewrite <- Hnames in Hgen2.
  eexists _, _, _, s1', s2'. split; [exact Hgen1 |]. split; [exact Hgen2 |].
  rewrite !province_layer_drawn. reflexivity.
Qed.

(** X16. The dates of the other mode do not reach the result: when the
    cache answers none of the calls with the rows of another frame, in
    range mode the map and the table do not depend on [date_exact], and
    in every other mode they do not depend on [date_start] and
    [date_end]. *)
Theorem generate_heatmap_unused_dates s gdf df_all g d mode ds de dx ds' de' dx' :
  mode <> "range" ->
  s !! gdf = Some (GDF g) -> s !! df_all = Some (DF d) -> "acq_date" ∈ columns d ->
  cache_agrees s d "range" ds de dx -> cache_agrees s d "range" ds de dx' ->
  cache_agrees s d mode ds de dx -> cache_agrees s d mode ds' de' dx ->
  (exists r s1 s2,
      generate_heatmap "range" ds de dx gdf df_all s = Ok (r, s1)
      /\ generate_heatmap "range" ds de dx' gdf df_all s = Ok (r, s2))
  /\ (exists r s1 s2,
      generate_heatmap mode ds de dx gdf df_all s = Ok (r, s1)
      /\ generate_heatmap mode ds' de' dx gdf df_all s = Ok (r, s2)).
Proof.
  intros Hm Hg Hd Hc Hr1 Hr2 Hm1 Hm2. apply String.eqb_neq in Hm.
  assert (Hmask : forall a b x a' b',
            date_mask mode a b x (acq_date <$> rows d)
            = date_mask mode a' b' x (acq_date <$> rows d)).
  { intros. unfold date_mask. rewrite Hm. reflexivity. }
  split.
  - destruct (filter_by_date_run _ _ _ _ _ _ _ Hd Hc Hr1) as (t1 & Hrun1 & Hl1 & _).
    destruct (filter_by_date_run _ _ _ _ _ _ _ Hd Hc Hr2) as (t2 & Hrun2 & Hl2 & _).
    destruct (generate_heatmap_run _ _ _ _ _ _ _ _ _ _ _ Hg Hrun1 Hl1) as (s1 & Hgen1 & _).
    destruct (generate_heatmap_run _ _ _ _ _ _ _ _ _ _ _ Hg Hrun2 Hl2) as (s2 & Hgen2 & _).
    eexists _, s1, s2. split; [exact Hgen1 | exact Hgen2].
  - destruct (filter_by_date_run _ _ _ _ _ _ _ Hd Hc Hm1) as (t1 & Hrun1 & Hl1 & _).
    destruct (filter_by_date_run _ _ _ _ _ _ _ Hd Hc Hm2) as (t2 & Hrun2 & Hl2 & _).
    rewrite (Hmask ds' de' dx ds de) in Hl2.
    destruct (generate_heatmap_run _ _ _ _ _ _ _ _ _ _ _ Hg Hrun1 Hl1) as (s1 & Hgen1 & _).
    destruct (generate_heatmap_run _ _ _ _ _ _ _ _ _ _ _ Hg Hrun2 Hl2) as (s2 & Hgen2 & _).
    eexists _, s1, s2. split; [exact Hgen1 | exact Hgen2].
Qed.

(** ** The filtered copy after the call *)

Lemma setitem_brightness_present d :
  "brightness" ∈ columns d -> setitem_brightness d (get d "brightness" 1) = d.
Proof.
  intros Hb. unfold setitem_brightness, get.
  rewrite (getitem_brightness _ Hb), zip_with_set_brightness.
  apply has_column_true in Hb. rewrite Hb. destruct d. reflexivity.
Qed.

Lemma generate_heatmap_run_filtered s gdf df_all g mode ds de dx l s1 dfl :
  s !! gdf = Some (GDF g) ->
  filter_by_date df_all mode ds de dx s = Ok (l, s1) ->
  s1 !! l = Some (DF dfl) ->
  exists r s',
    generate_heatmap mode ds de dx gdf df_all s = Ok (r, s')
    /\ s' !! l
       = Some (DF (if has_column "latitude" dfl && has_column "longitude" dfl
                      && negb (empty dfl)
                   then setitem_brightness dfl (get dfl "brightness" 1)
                   else dfl))
    /\ cache s' = cache s1.
Proof.
  intros Hg Hrun Hl.
  destruct (filter_by_date_inv _ _ _ _ _ _ _ _ Hrun)
    as (d & dfl0 & Hd & Hc & El & Hfresh & _ & _ & Hsame & _).
  assert (Hne : gdf <> l) by congruence.
  assert (Hg1 : s1 !! gdf = Some (GDF g)).
  { rewrite Hsame by exact Hne. exact Hg. }
  unfold generate_heatmap. unfold bind at 1. rewrite Hrun.
  unfold bind at 1. unfold read_df at 1. rewrite Hl.
  set (guard := has_column "latitude" dfl && has_column "longitude" dfl && negb (empty dfl)).
  set (dfl' := if guard then setitem_brightness dfl (get dfl "brightness" 1) else dfl).
  assert (Hblock : exists s2,
    (if guard then
       write l (DF (setitem_brightness dfl (get dfl "brightness" 1))) ;;;
       d' <- read_df l ;; lift (values_tolist d')
     else ret []) s1 = Ok (heat_data_of dfl, s2)
    /\ s2 !! l = Some (DF dfl') /\ s2 !! gdf = Some (GDF g) /\ cache s2 = cache s1).
  { unfold dfl'. destruct guard eqn:Eg.
    - exists (<[l := DF (setitem_brightness dfl (get dfl "brightness" 1))]> s1). split.
      + unfold bind, write, read_df, lift. rewrite state_lookup_insert_eq.
        unfold guard in Eg. apply andb_true_iff in Eg. destruct Eg as [Eg _].
        apply andb_true_iff in Eg. destruct Eg as [Hla Hlo].
        apply has_column_true in Hla, Hlo.
        rewrite (values_tolist_setitem _ Hla Hlo). reflexivity.
      + split; [apply state_lookup_insert_eq |]. split; [| reflexivity].
        rewrite state_lookup_insert_ne by congruence. exact Hg1.
    - exists s1. split; [| split; [| split]]; [| assumption | assumption | reflexivity].
      unfold ret. rewrite (heat_data_of_guard_false _ Eg). reflexivity. }
  destruct Hblock as (s2 & Hblock & Hl2 & Hg2 & Hcache).
  unfold bind at 1. rewrite Hblock.
  unfold bind at 1. unfold read_gdf at 1. rewrite Hg2.
  unfold bind, alloc, read_merged, write, ret.
  rewrite !state_lookup_insert_eq.
  eexists _, _. split; [reflexivity |]. split; [| exact Hcache].
  assert (fresh (dom s2) <> l).
  { intros E. assert (Hf := fresh_lookup s2). rewrite E, Hl2 in Hf. discriminate. }
  rewrite !state_lookup_insert_ne by assumption. exact Hl2.
Qed.

(** X17. The brightness assignment goes to the filtered copy: after the
    call, the frame [filter_by_date] returned has a brightness column
    when it has both coordinate columns and a row, holding its own
    brightness, or 1 in every row when it had no such column; a frame
    that already had the column, and a frame that fails the guard, are
    left as returned. *)
Theorem generate_heatmap_filtered_copy s gdf df_all g mode ds de dx l s1 dfl :
  s !! gdf = Some (GDF g) ->
  filter_by_date df_all mode ds de dx s = Ok (l, s1) ->
  s1 !! l = Some (DF dfl) ->
  exists r s' d',
    generate_heatmap mode ds de dx gdf df_all s = Ok (r, s')
    /\ s' !! l = Some (DF d')
    /\ ("latitude" ∈ columns dfl -> "longitude" ∈ columns dfl -> empty dfl = false ->
          "brightness" ∈ columns d'
          /\ rows d' = (fun x => set_brightness x (intensity dfl x)) <$> rows dfl)
    /\ ("brightness" ∈ columns dfl -> d' = dfl)
    /\ (empty dfl = true \/ "latitude" ∉ columns dfl \/ "longitude" ∉ columns dfl ->
          d' = dfl).
Proof.
  intros Hg Hrun Hl.
  destruct (generate_heatmap_run_filtered _ _ _ _ _ _ _ _ _ _ _ Hg Hrun Hl)
    as (r & s' & Hgen & Hl' & _).
  eexists r, s', _. split; [exact Hgen |]. split; [exact Hl' |].
  split; [| split].
  - intros Hla Hlo Hne. apply has_column_true in Hla, Hlo. rewrite Hla, Hlo, Hne.
    cbn [andb negb]. split; [apply setitem_brightness_has | apply setitem_brightness_rows].
  - intros Hb. destruct (_ && _ && _); [apply setitem_brightness_present, Hb | reflexivity].
  - intros Hskip. unfold has_column, empty in *.
    destruct Hskip as [He | [Hc | Hc]].
    + rewrite He, andb_false_r. reflexivity.
    + rewrite (bool_decide_eq_false_2 _ Hc). reflexivity.
    + rewrite (bool_decide_eq_false_2 _ Hc), andb_false_r. reflexivity.
Qed.

(** ** The same call again *)

(** X15. The second of two equal calls is answered from the cache:
    when the first call is not answered with the rows of another frame,
    the state it leaves has an entry under the key of the call, and the
    same call on that state stores nothing more and returns the same
    map and the same table. *)
Theorem generate_heatmap_rerun s gdf df_all g d mode ds de dx :
  s !! gdf = Some (GDF g) -> s !! df_all = Some (DF d) -> "acq_date" ∈ columns d ->
  cache_agrees s d mode ds de dx ->
  exists mymap table s' s'',
    generate_heatmap mode ds de dx gdf df_all s = Ok ((mymap, table), s')
    /\ is_Some (cache_get d mode ds de dx (cache s'))
    /\ generate_heatmap mode ds de dx gdf df_all s' = Ok ((mymap, table), s'')
    /\ cache s'' = cache s'.
Proof.
  intros Hg Hd Hc Hag.
  destruct (filter_by_date_run _ _ _ _ _ _ _ Hd Hc Hag) as (s1 & Hrun & Hl & _).
  destruct (generate_heatmap_run _ _ _ _ _ _ _ _ _ _ _ Hg Hrun Hl)
    as (s' & Hgen & Hkeep & _).
  destruct (generate_heatmap_run_filtered _ _ _ _ _ _ _ _ _ _ _ Hg Hrun Hl)
    as (r0 & s0 & Hgen0 & _ & Hcache).
  rewrite Hgen in Hgen0. injection Hgen0 as _ <-.
  assert (Hg' := Hkeep _ _ Hg). assert (Hd' := Hkeep _ _ Hd).
  assert (Hhit : is_Some (cache_get d mode ds de dx (cache s'))).
  { rewrite Hcache. exact (filter_by_date_cached _ _ _ _ _ _ _ _ _ Hd Hrun). }
  assert (Hag' : cache_agrees s' d mode ds de dx).
  { intros e He. rewrite Hcache in He. revert e He.
    apply (cache_agrees_after _ _ _ _ _ _ _ _ _ _ _ _ _ _ Hd Hrun Hag). auto. }
  destruct Hhit as [e Hget].
  destruct (filter_by_date_hit _ _ _ _ _ _ _ _ Hd' Hc Hget) as (s1' & Hrun' & _ & _ & Hcache1).
  destruct (filter_by_date_run _ _ _ _ _ _ _ Hd' Hc Hag') as (s1'' & Hrun'' & Hl' & _).
  rewrite Hrun' in Hrun''. injection Hrun'' as <-.
  destruct (generate_heatmap_run _ _ _ _ _ _ _ _ _ _ _ Hg' Hrun' Hl')
    as (s'' & Hgen' & _).
  destruct (generate_heatmap_run_filtered _ _ _ _ _ _ _ _ _ _ _ Hg' Hrun' Hl')
    as (r1 & s1x & Hgen1 & _ & Hcache').
  rewrite Hgen' in Hgen1. injection Hgen1 as _ <-.
  eexists _, _, s', s''. split; [exact Hgen |]. split; [eauto |].
  split; [exact Hgen' |]. rewrite Hcache', Hcache1. reflexivity.
Qed.

(** ** Widening the range *)

Lemma date_le_trans a b c : date_le a b -> date_le b c -> date_le a c.
Proof.
  unfold date_le, date_lt. intros [Hab | ->] [Hbc | ->]; auto.
  left. lia.
Qed.

Lemma filter_sublist_impl {A} (P Q : A -> Prop)
    `{!forall x, Decision (P x), !forall x, Decision (Q x)} (l : list A) :
  (forall x, P x -> Q x) -> filter P l `sublist_of` filter Q l.
Proof.
  intros HPQ. rewrite <- (list_filter_filter_l P Q l HPQ). apply sublist_filter.
Qed.

Lemma range_rows_widen d ds de dx ds' de' dx' :
  date_le ds' ds -> date_le de de' ->
  rows (boolean_index d (date_mask "range" ds de dx (acq_date <$> rows d)))
  `sublist_of`
  rows (boolean_index d (date_mask "range" ds' de' dx' (acq_date <$> rows d))).
Proof.
  intros Hs He. rewrite !date_mask_rows. apply filter_sublist_impl.
  unfold in_criteria. cbn [String.eqb Ascii.eqb Bool.eqb]. intros r [H1 H2]. split.
  - exact (date_le_trans _ _ _ Hs H1).
  - exact (date_le_trans _ _ _ H2 He).
Qed.

(** X18. Widening the range never loses a detection: when the cache
    answers neither call with the rows of another frame, the rows
    returned for a range are, in order, among the rows returned for any
    range that starts no later and ends no earlier. *)
Theorem filter_by_date_widen s df d ds de dx ds' de' dx' :
  s !! df = Some (DF d) -> "acq_date" ∈ columns d ->
  cache_agrees s d "range" ds de dx -> cache_agrees s d "range" ds' de' dx' ->
  date_le ds' ds -> date_le de de' ->
  exists l1 s1 d1 l2 s2 d2,
    filter_by_date df "range" ds de dx s = Ok (l1, s1)
    /\ s1 !! l1 = Some (DF d1)
    /\ filter_by_date df "range" ds' de' dx' s = Ok (l2, s2)
    /\ s2 !! l2 = Some (DF d2)
    /\ rows d1 `sublist_of` rows d2.
Proof.
  intros Hd Hc Hag1 Hag2 Hs He.
  destruct (filter_by_date_run _ _ _ _ _ _ _ Hd Hc Hag1) as (s1 & Hrun1 & Hl1 & _).
  destruct (filter_by_date_run _ _ _ _ _ _ _ Hd Hc Hag2) as (s2 & Hrun2 & Hl2 & _).
  eexists _, s1, _, _, s2, _.
  split; [exact Hrun1 |]. split; [exact Hl1 |].
  split; [exact Hrun2 |]. split; [exact Hl2 |].
  apply range_rows_widen; assumption.
Qed.

Lemma occurrences_bind_sublist {A} k (f : A -> list (option string)) (l1 l2 : list A) :
  l1 `sublist_of` l2 -> (occurrences k (l1 ≫= f) <= occurrences k (l2 ≫= f))%nat.
Proof.
  induction 1 as [| x l1 l2 _ IH | x l1 l2 _ IH].
  - reflexivity.
  - rewrite !bind_cons, !occurrences_app. lia.
  - rewrite bind_cons, occurrences_app. lia.
Qed.

Lemma containments_sublist g (l1 l2 : list Point) :
  l1 `sublist_of` l2 -> (containments l1 g <= containments l2 g)%nat.
Proof.
  unfold containments. induction 1 as [| x l1 l2 _ IH | x l1 l2 _ IH].
  - reflexivity.
  - rewrite !fmap_cons. cbn [sum_list_with]. lia.
  - rewrite fmap_cons. cbn [sum_list_with]. lia.
Qed.

Lemma heat_points_sublist d1 d2 :
  columns d1 = columns d2 -> rows d1 `sublist_of` rows d2 ->
  heat_points_of d1 `sublist_of` heat_points_of d2.
Proof.
  intros Hc Hr. rewrite !heat_points_of_rows. unfold has_column. rewrite Hc.
  destruct (_ && _); [| apply sublist_nil].
  induction Hr; cbn; constructor; assumption.
Qed.

(** X19. Widening the range never lowers a count: when the cache
    answers neither call with the rows of another frame, for a range
    that starts no later and ends no earlier every region of the
    province layer has at least the count it has for the narrower
    range, and the counts of the returned table add up to at least as
    much. *)
Theorem generate_heatmap_widen s gdf df_all g d ds de dx ds' de' dx' :
  s !! gdf = Some (GDF g) -> s !! df_all = Some (DF d) -> "acq_date" ∈ columns d ->
  cache_agrees s d "range" ds de dx -> cache_agrees s d "range" ds' de' dx' ->
  date_le ds' ds -> date_le de de' ->
  exists mymap1 table1 s1' mymap2 table2 s2',
    generate_heatmap "range" ds de dx gdf df_all s = Ok ((mymap1, table1), s1')
    /\ generate_heatmap "range" ds' de' dx' gdf df_all s = Ok ((mymap2, table2), s2')
    /\ Forall2 (fun c1 c2 =>
                  region c1 = region c2
                  /\ exists n1 n2, heat_spot_count c1 = Some n1
                       /\ heat_spot_count c2 = Some n2 /\ (n1 <= n2)%Z)
         (province_layer mymap1) (province_layer mymap2)
    /\ (total table1 <= total table2)%Z.
Proof.
  intros Hg Hd Hc Hag1 Hag2 Hs He.
  destruct (filter_by_date_run _ _ _ _ _ _ _ Hd Hc Hag1) as (t1 & Hrun1 & Hl1 & _).
  destruct (filter_by_date_run _ _ _ _ _ _ _ Hd Hc Hag2) as (t2 & Hrun2 & Hl2 & _).
  destruct (generate_heatmap_run _ _ _ _ _ _ _ _ _ _ _ Hg Hrun1 Hl1) as (s1' & Hgen1 & _).
  destruct (generate_heatmap_run _ _ _ _ _ _ _ _ _ _ _ Hg Hrun2 Hl2) as (s2' & Hgen2 & _).
  set (f1 := boolean_index d (date_mask "range" ds de dx (acq_date <$> rows d))) in *.
  set (f2 := boolean_index d (date_mask "range" ds' de' dx' (acq_date <$> rows d))) in *.
  assert (Hsub : heat_points_of f1 `sublist_of` heat_points_of f2).
  { apply heat_points_sublist; [reflexivity |]. apply range_rows_widen; assumption. }
  eexists _, _, s1', _, _, s2'. split; [exact Hgen1 |]. split; [exact Hgen2 |].
  split.
  - rewrite !province_layer_drawn, !(merge_fillna _ _ (value_counts_NoDup _)).
    apply Forall2_fmap, Forall_Forall2_diag, Forall_forall. intros r _.
    cbn [region heat_spot_count]. split; [reflexivity |].
    eexists _, _. split; [reflexivity |]. split; [reflexivity |].
    rewrite !value_counts_lookup_count. apply inj_le.
    unfold joined_names, joined_of, sjoin. rewrite !sjoin_from_names.
    apply occurrences_bind_sublist, Hsub.
  - rewrite !(total_Permutation _ _ (sort_values_desc_Permutation _)).
    unfold value_counts.
    rewrite !(total_Permutation _ _ (sort_values_desc_Permutation _)), !tally_total.
    unfold joined_names, joined_of. rewrite !length_omap_joined.
    apply inj_le, containments_sublist, Hsub.
Qed.

End Facts.

(** * The concrete session *)

Lemma ex_frame_dated : "acq_date" ∈ columns ex_frame.
Proof. compute_done. Qed.

(** The cache of the session holds entries of the detection frame
    only. *)
Lemma ex_store_agrees mode ds de dx : cache_agrees ex_store ex_frame mode ds de dx.
Proof. intros e He. apply elem_of_nil in He. destruct He. Qed.

Lemma ex_store_day_agrees mode ds de dx : cache_agrees ex_store_day ex_frame mode ds de dx.
Proof. intros e He _. apply list_elem_of_singleton in He. subst e. reflexivity. Qed.

Lemma ex_filter_day :
  filter_by_date 1%nat "exact" ex_eve ex_day ex_day ex_store = Ok (2%nat, ex_store_day).
Proof. vm_compute. reflexivity. Qed.

(** C3 fails with the cache of line 36, whatever at most 10 000
    positions the key of a frame of 50 000 rows samples.  Take a frame
    of 50 000 rows dated 9 April 2025 and the frame that differs from it
    in one row outside the sample, dated 10 April 2025.  After a call on
    the first frame, the same call on the second, in exact mode for
    10 April, is answered with the empty frame stored for the first,
    not with the one row of that date. *)
Lemma filter_by_date_selects_counterexample :
  ~ exists SP : Sampler,
      sample_size_ok SP
      /\ forall (s : state Box) df d ds de dx,
           s !! df = Some (DF d) -> "acq_date" ∈ columns d ->
           (exists l s1 d1,
               filter_by_date (SP := SP) df "exact" ds de dx s = Ok (l, s1)
               /\ s1 !! l = Some (DF d1)
               /\ rows d1 = filter (fun r => acq_date r = dx) (rows d)
               /\ ((forall r, r ∈ rows d -> acq_date r <> dx) -> rows d1 = []))
           /\ (exists l s1 d1,
               filter_by_date (SP := SP) df "range" ds de dx s = Ok (l, s1)
               /\ s1 !! l = Some (DF d1)
               /\ rows d1
                  = filter (fun r => date_le ds (acq_date r) /\ date_le (acq_date r) de)
                      (rows d)
               /\ ((forall r, r ∈ rows d ->
                      ~ (date_le ds (acq_date r) /\ date_le (acq_date r) de))
                   -> rows d1 = [])).
Proof.
  intros (SP & Hok & Hclaim).
  destruct (unsampled_position Hok) as (p & Hp & Hout).
  destruct (stale_answer (G := Box) p "exact" ex_eve ex_eve ex_day Hout)
    as (l1 & s1 & _ & H2 & _ & Hstale).
  assert (Hc : "acq_date" ∈ columns (new_frame p)) by compute_done.
  destruct (Hclaim s1 2%nat (new_frame p) ex_eve ex_eve ex_day H2 Hc)
    as [(l & s2 & d2 & Hrun & Hl & Hrows & _) _].
  apply (Hstale l s2 d2 Hrun Hl). rewrite Hrows. apply new_row_selected, Hp.
Qed.

Lemma filter_by_date_selects_witness :
  ex_store_day !! 1%nat = Some (DF ex_frame)
  /\ "acq_date" ∈ columns ex_frame
  /\ cache_agrees ex_store_day ex_frame "exact" ex_eve ex_day ex_day
  /\ cache_agrees ex_store_day ex_frame "range" ex_eve ex_day ex_day
  /\ exists l s1 d1,
      filter_by_date 1%nat "exact" ex_eve ex_day ex_day ex_store_day = Ok (l, s1)
      /\ s1 !! l = Some (DF d1)
      /\ rows d1 = filter (fun r => acq_date r = ex_day) (rows ex_frame).
Proof.
  assert (H1 : ex_store_day !! 1%nat = Some (DF ex_frame)) by reflexivity.
  split; [exact H1 |]. split; [exact ex_frame_dated |].
  split; [apply ex_store_day_agrees |]. split; [apply ex_store_day_agrees |].
  destruct (filter_by_date_selects ex_store_day 1%nat ex_frame ex_eve ex_day ex_day
              H1 ex_frame_dated (ex_store_day_agrees _ _ _ _) (ex_store_day_agrees _ _ _ _))
    as [(l & s1 & d1 & Hrun & Hl & Hrows & _) _].
  exists l, s1, d1. auto.
Defined.

(** C4 fails with the cache of line 36.  With the two frames of 50 000
    rows, after a call in range mode from 10 April to 10 April on the
    first frame, the same call on the second is answered with the empty
    frame stored for the first, while the call in exact mode for
    10 April, which has another key, returns the one row of that
    date. *)
Lemma filter_by_date_point_range_counterexample :
  ~ exists SP : Sampler,
      sample_size_ok SP
      /\ forall (s : state Box) df d (D ds de dx : date),
           s !! df = Some (DF d) -> "acq_date" ∈ columns d ->
           exists l1 s1 l2 s2 d1,
             filter_by_date (SP := SP) df "range" D D dx s = Ok (l1, s1)
             /\ filter_by_date (SP := SP) df "exact" ds de D s = Ok (l2, s2)
             /\ s1 !! l1 = Some (DF d1)
             /\ s2 !! l2 = Some (DF d1).
Proof.
  intros (SP & Hok & Hclaim).
  destruct (unsampled_position Hok) as (p & Hp & Hout).
  destruct (stale_answer (G := Box) p "range" ex_day ex_day ex_day Hout)
    as (l0 & s0 & Hrun0 & H2 & _ & Hstale).
  assert (Hc : "acq_date" ∈ columns (new_frame p)) by compute_done.
  destruct (Hclaim s0 2%nat (new_frame p) ex_day ex_day ex_day ex_day H2 Hc)
    as (l1 & s1 & l2 & s2 & d1 & Hrun1 & Hrun2 & Hl1 & Hl2).
  apply (Hstale l1 s1 d1 Hrun1 Hl1).
  apply (fresh_answer p "range" "exact" ex_day ex_day ex_day ex_day ex_day l0 s0 Hp
           ltac:(discriminate) ltac:(discriminate) Hrun0 l2 s2 d1 Hrun2 Hl2).
Qed.

Lemma filter_by_date_point_range_witness :
  ex_store_day !! 1%nat = Some (DF ex_frame)
  /\ "acq_date" ∈ columns ex_frame
  /\ cache_agrees ex_store_day ex_frame "range" ex_day ex_day ex_morrow
  /\ cache_agrees ex_store_day ex_frame "exact" ex_eve ex_day ex_day
  /\ exists l1 s1 l2 s2 d1,
      filter_by_date 1%nat "range" ex_day ex_day ex_morrow ex_store_day = Ok (l1, s1)
      /\ filter_by_date 1%nat "exact" ex_eve ex_day ex_day ex_store_day = Ok (l2, s2)
      /\ s1 !! l1 = Some (DF d1)
      /\ s2 !! l2 = Some (DF d1)
      /\ rows d1 = filter (fun r => acq_date r = ex_day) (rows ex_frame).
Proof.
  assert (H1 : ex_store_day !! 1%nat = Some (DF ex_frame)) by reflexivity.
  split; [exact H1 |]. split; [exact ex_frame_dated |].
  split; [apply ex_store_day_agrees |]. split; [apply ex_store_day_agrees |].
  exact (filter_by_date_point_range ex_store_day 1%nat ex_frame ex_day ex_eve ex_day
           ex_morrow H1 ex_frame_dated
           (ex_store_day_agrees _ _ _ _) (ex_store_day_agrees _ _ _ _)).
Defined.

(** C10 fails with the cache of line 36.  With the two frames of 50 000
    rows, after a call in the mode ["nearest"] for 10 April on the
    first frame, the same call on the second is answered with the empty
    frame stored for the first, not with the one row of that date. *)
Lemma filter_by_date_other_mode_counterexample :
  ~ exists SP : Sampler,
      sample_size_ok SP
      /\ forall (s : state Box) df d mode ds de dx,
           mode <> "range" ->
           s !! df = Some (DF d) -> "acq_date" ∈ columns d ->
           exists l s1 d1,
             filter_by_date (SP := SP) df mode ds de dx s = Ok (l, s1)
             /\ s1 !! l = Some (DF d1)
             /\ rows d1 = filter (fun r => acq_date r = dx) (rows d).
Proof.
  intros (SP & Hok & Hclaim).
  destruct (unsampled_position Hok) as (p & Hp & Hout).
  destruct (stale_answer (G := Box) p "nearest" ex_eve ex_eve ex_day Hout)
    as (l1 & s1 & _ & H2 & _ & Hstale).
  assert (Hc : "acq_date" ∈ columns (new_frame p)) by compute_done.
  assert (Hm : "nearest" <> "range") by discriminate.
  destruct (Hclaim s1 2%nat (new_frame p) "nearest" ex_eve ex_eve ex_day Hm H2 Hc)
    as (l & s2 & d2 & Hrun & Hl & Hrows).
  apply (Hstale l s2 d2 Hrun Hl). rewrite Hrows. apply new_row_selected, Hp.
Qed.

Lemma filter_by_date_other_mode_witness :
  "nearest" <> "range"
  /\ ex_store_day !! 1%nat = Some (DF ex_frame)
  /\ "acq_date" ∈ columns ex_frame
  /\ cache_agrees ex_store_day ex_frame "nearest" ex_eve ex_day ex_day
  /\ exists l s1 d1,
      filter_by_date 1%nat "nearest" ex_eve ex_day ex_day ex_store_day = Ok (l, s1)
      /\ s1 !! l = Some (DF d1)
      /\ rows d1 = filter (fun r => acq_date r = ex_day) (rows ex_frame).
Proof.
  assert (H0 : "nearest" <> "range") by discriminate.
  assert (H1 : ex_store_day !! 1%nat = Some (DF ex_frame)) by reflexivity.
  split; [exact H0 |]. split; [exact H1 |]. split; [exact ex_frame_dated |].
  split; [apply ex_store_day_agrees |].
  destruct (filter_by_date_other_mode ex_store_day 1%nat ex_frame "nearest"
              ex_eve ex_day ex_day H0 H1 ex_frame_dated (ex_store_day_agrees _ _ _ _))
    as (l & s1 & d1 & Hrun & Hl & _ & Hrows & _).
  exists l, s1, d1. auto.
Defined.


(** * The session through [generate_heatmap] *)

Lemma ex_filter_morrow :
  filter_by_date 1%nat "exact" ex_eve ex_day ex_morrow ex_store = Ok (2%nat, ex_store_morrow).
Proof. vm_compute. reflexivity. Qed.

Lemma ex_plain_filter_day :
  filter_by_date 1%nat "range" ex_day ex_morrow ex_day ex_plain_store
  = Ok (2%nat, ex_plain_store_day).
Proof. vm_compute. reflexivity. Qed.


Lemma ex_regions_disjoint : pairwise_disjoint ex_regions.
Proof.
  intros p i j ri rj Hi Hj Hne Hwi Hwj.
  assert (Hcase : forall k r, ex_regions !! k = Some r ->
            within p (geometry r) = true ->
            (k = 0%nat /\ (px p < 1)%Q) \/ (k = 1%nat /\ (2 < px p)%Q)).
  { intros k r Hk Hw. destruct k as [| [| k]]; simpl in Hk; [| | discriminate].
    - injection Hk as <-. left. split; [reflexivity |].
      unfold within, box_within in Hw. cbn in Hw.
      rewrite !andb_true_iff in Hw. apply Qlt_bool_true. tauto.
    - injection Hk as <-. right. split; [reflexivity |].
      unfold within, box_within in Hw. cbn in Hw.
      rewrite !andb_true_iff in Hw. apply Qlt_bool_true. tauto. }
  destruct (Hcase i ri Hi Hwi) as [[-> Hpi] | [-> Hpi]],
           (Hcase j rj Hj Hwj) as [[-> Hpj] | [-> Hpj]];
    try congruence; lra.
Qed.

(** The session on 10 April 2025: province A counts its two detections
    and province B none, the table has the one row of A, and the heat
    layer has the three weights 50/150, 150/150 and 0/150. *)
Example ex_generate_heatmap :
  exists s',
    generate_heatmap "exact" ex_eve ex_day ex_day 0%nat 1%nat ex_store
    = Ok (({| location := (13.7367%Q, 100.5231%Q); zoom_start := 6;
              layers :=
                [GeoJson [mkCounted (mkRegion "A" (mkBox 0 0 1 1)) (Some 2%Z);
                          mkCounted (mkRegion "B" (mkBox 2 2 3 3)) (Some 0%Z)];
                 HeatMap [(1 # 2, 1 # 2, 50 # 150)%Q; (3 # 5, 3 # 5, 150 # 150)%Q;
                          (5, 5, 0 # 150)%Q]] |},
           [("A", 2%Z)]), s')
    /\ s' !! 0%nat = Some (GDF ex_regions)
    /\ s' !! 1%nat = Some (DF ex_frame).
Proof. eexists. split; [vm_compute; reflexivity |]. split; reflexivity. Qed.

Example ex_unmatched_count :
  unmatched_count (joined_of ex_filtered ex_regions) 3 = 1%nat.
Proof. vm_compute. reflexivity. Qed.

(** C1 fails for the returned table: on 10 April 2025 no detection is
    within province B, and the table has no row for it. *)
Lemma every_region_once_counterexample :
  exists mymap s',
    generate_heatmap "exact" ex_eve ex_day ex_day 0%nat 1%nat ex_store
    = Ok ((mymap, [("A", 2%Z)]), s')
    /\ ~ every_region_once ex_regions [("A", 2%Z)].
Proof.
  eexists _, _. split; [vm_compute; reflexivity |].
  intros Hall. specialize (Hall (mkRegion "B" (mkBox 2 2 3 3))).
  assert (Hin : mkRegion "B" (mkBox 2 2 3 3) ∈ ex_regions).
  { apply list_elem_of_further, list_elem_of_here. }
  specialize (Hall Hin). vm_compute in Hall. discriminate.
Qed.

Lemma generate_heatmap_left_join_witness :
  ex_store !! 0%nat = Some (GDF ex_regions)
  /\ ex_store_day !! 2%nat = Some (DF ex_filtered)
  /\ exists mymap table s',
      generate_heatmap "exact" ex_eve ex_day ex_day 0%nat 1%nat ex_store
      = Ok ((mymap, table), s')
      /\ region <$> province_layer mymap = ex_regions
      /\ NoDup table.*1.
Proof.
  assert (H1 : ex_store !! 0%nat = Some (GDF ex_regions)) by reflexivity.
  assert (H2 : ex_store_day !! 2%nat = Some (DF ex_filtered)) by reflexivity.
  split; [exact H1 |]. split; [exact H2 |].
  destruct (generate_heatmap_left_join ex_store 0%nat 1%nat ex_regions "exact"
              ex_eve ex_day ex_day 2%nat ex_store_day ex_filtered H1 ex_filter_day H2)
    as (mymap & table & s' & Hrun & Hreg & _ & _ & Hnd & _).
  exists mymap, table, s'. auto.
Defined.

Lemma generate_heatmap_counts_partition_witness :
  pairwise_disjoint ex_regions
  /\ exists mymap table s',
      generate_heatmap "exact" ex_eve ex_day ex_day 0%nat 1%nat ex_store
      = Ok ((mymap, table), s')
      /\ (total table
          + Z.of_nat (unmatched_count (joined_of ex_filtered ex_regions) 3) = 3)%Z.
Proof.
  split; [exact ex_regions_disjoint |].
  exact (generate_heatmap_counts_partition ex_store 0%nat 1%nat ex_regions "exact"
           ex_eve ex_day ex_day 2%nat ex_store_day ex_filtered
           eq_refl ex_filter_day eq_refl ex_regions_disjoint).
Defined.

Lemma generate_heatmap_no_points_witness :
  empty ex_nothing = true
  /\ exists mymap table s',
      generate_heatmap "exact" ex_eve ex_day ex_morrow 0%nat 1%nat ex_store
      = Ok ((mymap, table), s')
      /\ table = [] /\ heat_layer mymap = [].
Proof.
  split; [reflexivity |].
  destruct (generate_heatmap_no_points ex_store 0%nat 1%nat ex_regions "exact"
              ex_eve ex_day ex_morrow 2%nat ex_store_morrow ex_nothing
              eq_refl ex_filter_morrow eq_refl (or_introl eq_refl))
    as (mymap & table & s' & Hrun & _ & Ht & _ & Hh).
  exists mymap, table, s'. auto.
Defined.

(** With one detection in each province, the one in province B first,
    and the stable sort, the table lists B before A. *)
Example ex_tie_table :
  exists mymap s',
    generate_heatmap (SV := insertion_sort) "exact" ex_eve ex_day ex_day 0%nat 1%nat
      ex_tie_store
    = Ok ((mymap, [("B", 1%Z); ("A", 1%Z)]), s').
Proof. eexists _, _. vm_compute. reflexivity. Qed.






Lemma generate_heatmap_weights_witness :
  ex_store !! 0%nat = Some (GDF ex_regions)
  /\ exists mymap table s',
      generate_heatmap "exact" ex_eve ex_day ex_day 0%nat 1%nat ex_store
      = Ok ((mymap, table), s')
      /\ Forall (fun e => (0 <= e.2 <= 1)%Q) (heat_layer mymap).
Proof.
  split; [reflexivity |].
  destruct (generate_heatmap_weights ex_store 0%nat 1%nat ex_regions "exact"
              ex_eve ex_day ex_day 2%nat ex_store_day ex_filtered
              eq_refl ex_filter_day eq_refl)
    as (mymap & table & s' & Hrun & _ & Hw & _).
  exists mymap, table, s'. auto.
Defined.


Lemma generate_heatmap_preserves_base_witness :
  ex_store !! 0%nat = Some (GDF ex_regions)
  /\ ex_store !! 1%nat = Some (DF ex_frame)
  /\ "acq_date" ∈ columns ex_frame
  /\ exists mymap table s',
      generate_heatmap "exact" ex_eve ex_day ex_day 0%nat 1%nat ex_store
      = Ok ((mymap, table), s')
      /\ s' !! 0%nat = Some (GDF ex_regions)
      /\ s' !! 1%nat = Some (DF ex_frame).
Proof.
  assert (H3 : "acq_date" ∈ columns ex_frame) by compute_done.
  split; [reflexivity |]. split; [reflexivity |]. split; [exact H3 |].
  destruct (generate_heatmap_preserves_base ex_store 0%nat 1%nat ex_regions ex_frame
              "exact" ex_eve ex_day ex_day eq_refl eq_refl H3)
    as (mymap & table & s' & Hrun & Hg & Hd & _).
  exists mymap, table, s'. auto.
Defined.

(** ** Instances of the further properties *)

Lemma filter_by_date_missing_column_witness :
  ex_undated_store !! 1%nat = Some (DF ex_undated_frame)
  /\ ("acq_date" ∉ columns ex_undated_frame)
  /\ generate_heatmap "exact" ex_eve ex_day ex_day 0%nat 1%nat ex_undated_store
     = Raise (KeyError "acq_date").
Proof.
  assert (H2 : "acq_date" ∉ columns ex_undated_frame) by compute_done.
  split; [reflexivity |]. split; [exact H2 |].
  exact (proj2 (filter_by_date_missing_column ex_undated_store 1%nat ex_undated_frame
                  "exact" ex_eve ex_day ex_day 0%nat eq_refl H2)).
Defined.

Lemma filter_by_date_sublist_witness :
  ex_store_day !! 1%nat = Some (DF ex_frame)
  /\ "acq_date" ∈ columns ex_frame
  /\ cache_agrees ex_store_day ex_frame "exact" ex_eve ex_day ex_day
  /\ exists l s1 d1,
      filter_by_date 1%nat "exact" ex_eve ex_day ex_day ex_store_day = Ok (l, s1)
      /\ s1 !! l = Some (DF d1)
      /\ rows d1 = filter (in_criteria "exact" ex_eve ex_day ex_day) (rows ex_frame)
      /\ rows d1 `sublist_of` rows ex_frame.
Proof.
  assert (H1 : ex_store_day !! 1%nat = Some (DF ex_frame)) by reflexivity.
  split; [exact H1 |]. split; [exact ex_frame_dated |].
  split; [apply ex_store_day_agrees |].
  destruct (filter_by_date_sublist ex_store_day 1%nat ex_frame "exact" ex_eve ex_day ex_day
              H1 ex_frame_dated (ex_store_day_agrees _ _ _ _))
    as (l & s1 & d1 & Hrun & Hl & _ & Hrows & Hsub & _).
  exists l, s1, d1. auto.
Defined.

Lemma filter_by_date_inverted_range_witness :
  date_lt ex_eve ex_day
  /\ exists l s1,
      filter_by_date 1%nat "range" ex_day ex_eve ex_day ex_store = Ok (l, s1)
      /\ s1 !! l = Some (DF ex_nothing).
Proof.
  assert (H : date_lt ex_eve ex_day) by compute_done.
  split; [exact H |].
  exact (filter_by_date_inverted_range ex_store 1%nat ex_frame ex_day ex_eve ex_day
           eq_refl ex_frame_dated H).
Defined.

Lemma filter_by_date_compose_witness :
  ex_store !! 1%nat = Some (DF ex_frame)
  /\ "acq_date" ∈ columns ex_frame
  /\ cache_agrees ex_store ex_frame "range" ex_eve ex_morrow ex_day
  /\ cache_agrees ex_store (filtered ex_frame "range" ex_eve ex_morrow ex_day)
       "exact" ex_eve ex_day ex_day
  /\ exists l1 s1 l2 s2 d2,
      filter_by_date 1%nat "range" ex_eve ex_morrow ex_day ex_store = Ok (l1, s1)
      /\ filter_by_date l1 "exact" ex_eve ex_day ex_day s1 = Ok (l2, s2)
      /\ s2 !! l2 = Some (DF d2)
      /\ columns d2 = columns ex_frame.
Proof.
  assert (Hnil : forall d mode ds de dx, cache_agrees ex_store d mode ds de dx).
  { intros d mode ds de dx e He. apply elem_of_nil in He. destruct He. }
  split; [reflexivity |]. split; [exact ex_frame_dated |].
  split; [apply Hnil |]. split; [apply Hnil |].
  destruct (filter_by_date_compose ex_store 1%nat ex_frame
              "range" ex_eve ex_morrow ex_day "exact" ex_eve ex_day ex_day
              eq_refl ex_frame_dated (Hnil _ _ _ _ _) (Hnil _ _ _ _ _))
    as (l1 & s1 & l2 & s2 & d2 & H1 & H2 & H3 & H4 & _).
  exists l1, s1, l2, s2, d2. auto.
Defined.

Lemma filter_by_date_idempotent_witness :
  ex_store !! 1%nat = Some (DF ex_frame)
  /\ "acq_date" ∈ columns ex_frame
  /\ cache_agrees ex_store ex_frame "exact" ex_eve ex_day ex_day
  /\ cache_agrees ex_store (filtered ex_frame "exact" ex_eve ex_day ex_day)
       "exact" ex_eve ex_day ex_day
  /\ exists l1 s1 d1 l2 s2,
      filter_by_date 1%nat "exact" ex_eve ex_day ex_day ex_store = Ok (l1, s1)
      /\ s1 !! l1 = Some (DF d1)
      /\ filter_by_date l1 "exact" ex_eve ex_day ex_day s1 = Ok (l2, s2)
      /\ s2 !! l2 = Some (DF d1).
Proof.
  assert (Hnil : forall d mode ds de dx, cache_agrees ex_store d mode ds de dx).
  { intros d mode ds de dx e He. apply elem_of_nil in He. destruct He. }
  split; [reflexivity |]. split; [exact ex_frame_dated |].
  split; [apply Hnil |]. split; [apply Hnil |].
  exact (filter_by_date_idempotent ex_store 1%nat ex_frame "exact" ex_eve ex_day ex_day
           eq_refl ex_frame_dated (Hnil _ _ _ _ _) (Hnil _ _ _ _ _)).
Defined.

Lemma filter_by_date_widen_witness :
  ex_store_day !! 1%nat = Some (DF ex_frame)
  /\ cache_agrees ex_store_day ex_frame "range" ex_day ex_day ex_day
  /\ cache_agrees ex_store_day ex_frame "range" ex_eve ex_morrow ex_day
  /\ date_le ex_eve ex_day /\ date_le ex_day ex_morrow
  /\ exists l1 s1 d1 l2 s2 d2,
      filter_by_date 1%nat "range" ex_day ex_day ex_day ex_store_day = Ok (l1, s1)
      /\ s1 !! l1 = Some (DF d1)
      /\ filter_by_date 1%nat "range" ex_eve ex_morrow ex_day ex_store_day = Ok (l2, s2)
      /\ s2 !! l2 = Some (DF d2)
      /\ rows d1 `sublist_of` rows d2.
Proof.
  assert (H0 : ex_store_day !! 1%nat = Some (DF ex_frame)) by reflexivity.
  assert (H1 : date_le ex_eve ex_day) by compute_done.
  assert (H2 : date_le ex_day ex_morrow) by compute_done.
  split; [exact H0 |]. split; [apply ex_store_day_agrees |].
  split; [apply ex_store_day_agrees |]. split; [exact H1 |]. split; [exact H2 |].
  exact (filter_by_date_widen ex_store_day 1%nat ex_frame ex_day ex_day ex_day
           ex_eve ex_morrow ex_day H0 ex_frame_dated
           (ex_store_day_agrees _ _ _ _) (ex_store_day_agrees _ _ _ _) H1 H2).
Defined.

Lemma normalize_monotone_witness :
  (300 <= 350)%Q
  /\ forall ex ey,
      normalize ex_heat_data !! 0%nat = Some ex ->
      normalize ex_heat_data !! 1%nat = Some ey -> (ex.2 <= ey.2)%Q.
Proof.
  assert (H : (300 <= 350)%Q) by (unfold Qle; simpl; lia).
  split; [exact H |]. intros ex ey Hex Hey.
  exact (normalize_monotone ex_heat_data 0%nat 1%nat (1, 1, 300)%Q (2, 2, 350)%Q ex ey
           eq_refl eq_refl Hex Hey H).
Defined.

Lemma normalize_saturates_witness :
  ex_heat_data !! 0%nat = Some (1, 1, 300)%Q
  /\ forall e, normalize ex_heat_data !! 0%nat = Some e -> e.1 = (1, 1)%Q.
Proof.
  split; [reflexivity |]. intros e He.
  exact (proj1 (normalize_saturates ex_heat_data 0%nat (1, 1, 300)%Q e eq_refl He)).
Defined.

Lemma generate_heatmap_total_containments_witness :
  ex_store !! 0%nat = Some (GDF ex_regions)
  /\ exists mymap table s',
      generate_heatmap "exact" ex_eve ex_day ex_day 0%nat 1%nat ex_store
      = Ok ((mymap, table), s')
      /\ total table = Z.of_nat (containments (heat_points_of ex_filtered) ex_regions).
Proof.
  split; [reflexivity |].
  exact (generate_heatmap_total_containments ex_store 0%nat 1%nat ex_regions "exact"
           ex_eve ex_day ex_day 2%nat ex_store_day ex_filtered
           eq_refl ex_filter_day eq_refl).
Defined.

Lemma ex_regions_names : NoDup (ADM1_TH <$> ex_regions).
Proof. compute_done. Qed.

Lemma ex_filtered_latitude : "latitude" ∈ columns ex_filtered.
Proof. compute_done. Qed.

Lemma ex_filtered_longitude : "longitude" ∈ columns ex_filtered.
Proof. compute_done. Qed.

Lemma generate_heatmap_count_within_witness :
  NoDup (ADM1_TH <$> ex_regions)
  /\ "latitude" ∈ columns ex_filtered
  /\ "longitude" ∈ columns ex_filtered
  /\ exists mymap table s',
      generate_heatmap "exact" ex_eve ex_day ex_day 0%nat 1%nat ex_store
      = Ok ((mymap, table), s')
      /\ forall c, c ∈ province_layer mymap ->
           heat_spot_count c
           = Some (Z.of_nat (length (filter
                     (fun r => within (point_of r) (geometry (region c)) = true)
                     (rows ex_filtered)))).
Proof.
  split; [exact ex_regions_names |]. split; [exact ex_filtered_latitude |].
  split; [exact ex_filtered_longitude |].
  exact (generate_heatmap_count_within ex_store 0%nat 1%nat ex_regions "exact"
           ex_eve ex_day ex_day 2%nat ex_store_day ex_filtered
           eq_refl ex_filter_day eq_refl
           ex_regions_names ex_filtered_latitude ex_filtered_longitude).
Defined.

Lemma generate_heatmap_table_bounded_witness :
  ex_store !! 0%nat = Some (GDF ex_regions)
  /\ exists mymap table s',
      generate_heatmap "exact" ex_eve ex_day ex_day 0%nat 1%nat ex_store
      = Ok ((mymap, table), s')
      /\ (length table <= length ex_regions)%nat.
Proof.
  split; [reflexivity |].
  destruct (generate_heatmap_table_bounded ex_store 0%nat 1%nat ex_regions "exact"
              ex_eve ex_day ex_day 2%nat ex_store_day ex_filtered
              eq_refl ex_filter_day eq_refl)
    as (mymap & table & s' & Hrun & _ & Hlen).
  exists mymap, table, s'. auto.
Defined.

Lemma generate_heatmap_table_layer_agree_witness :
  ex_store !! 0%nat = Some (GDF ex_regions)
  /\ exists mymap table s',
      generate_heatmap "exact" ex_eve ex_day ex_day 0%nat 1%nat ex_store
      = Ok ((mymap, table), s')
      /\ forall c, c ∈ province_layer mymap -> ADM1_TH (region c) ∉ table.*1 ->
           heat_spot_count c = Some 0%Z.
Proof.
  split; [reflexivity |].
  destruct (generate_heatmap_table_layer_agree ex_store 0%nat 1%nat ex_regions "exact"
              ex_eve ex_day ex_day 2%nat ex_store_day ex_filtered
              eq_refl ex_filter_day eq_refl)
    as (mymap & table & s' & Hrun & _ & Hzero & _).
  exists mymap, table, s'. auto.
Defined.

Lemma generate_heatmap_heat_layer_witness :
  empty ex_filtered = false
  /\ exists mymap table s',
      generate_heatmap "exact" ex_eve ex_day ex_day 0%nat 1%nat ex_store
      = Ok ((mymap, table), s')
      /\ fst <$> heat_layer mymap
         = (fun r => (latitude r, longitude r)) <$> rows ex_filtered.
Proof.
  split; [reflexivity |].
  destruct (generate_heatmap_heat_layer ex_store 0%nat 1%nat ex_regions "exact"
              ex_eve ex_day ex_day 2%nat ex_store_day ex_filtered
              eq_refl ex_filter_day eq_refl
              ex_filtered_latitude ex_filtered_longitude eq_refl)
    as (mymap & table & s' & Hrun & _ & Hpts).
  exists mymap, table, s'. auto.
Defined.

Lemma ex_dim_rows : Forall2 same_but_brightness (rows ex_frame) (rows ex_dim_frame).
Proof. repeat constructor. Qed.

Lemma ex_two_store_agrees d mode ds de dx : cache_agrees ex_two_store d mode ds de dx.
Proof. intros e He. apply elem_of_nil in He. destruct He. Qed.

Lemma generate_heatmap_ignores_brightness_witness :
  Forall2 same_but_brightness (rows ex_frame) (rows ex_dim_frame)
  /\ cache_agrees ex_two_store ex_frame "exact" ex_eve ex_day ex_day
  /\ cache_agrees ex_two_store ex_dim_frame "exact" ex_eve ex_day ex_day
  /\ exists mymap1 mymap2 table s1' s2',
      generate_heatmap "exact" ex_eve ex_day ex_day 0%nat 1%nat ex_two_store
      = Ok ((mymap1, table), s1')
      /\ generate_heatmap "exact" ex_eve ex_day ex_day 0%nat 2%nat ex_two_store
         = Ok ((mymap2, table), s2')
      /\ province_layer mymap1 = province_layer mymap2.
Proof.
  split; [exact ex_dim_rows |]. split; [apply ex_two_store_agrees |].
  split; [apply ex_two_store_agrees |].
  exact (generate_heatmap_ignores_brightness ex_two_store 0%nat 1%nat 2%nat ex_regions
           ex_frame ex_dim_frame "exact" ex_eve ex_day ex_day
           eq_refl eq_refl eq_refl ex_frame_dated ex_frame_dated
           (ex_two_store_agrees _ _ _ _ _) (ex_two_store_agrees _ _ _ _ _)
           eq_refl eq_refl ex_dim_rows).
Defined.

Lemma generate_heatmap_rerun_witness :
  ex_store !! 0%nat = Some (GDF ex_regions)
  /\ ex_store !! 1%nat = Some (DF ex_frame)
  /\ cache_agrees ex_store ex_frame "exact" ex_eve ex_day ex_day
  /\ exists mymap table s' s'',
      generate_heatmap "exact" ex_eve ex_day ex_day 0%nat 1%nat ex_store
      = Ok ((mymap, table), s')
      /\ is_Some (cache_get ex_frame "exact" ex_eve ex_day ex_day (cache s'))
      /\ generate_heatmap "exact" ex_eve ex_day ex_day 0%nat 1%nat s'
         = Ok ((mymap, table), s'')
      /\ cache s'' = cache s'.
Proof.
  split; [reflexivity |]. split; [reflexivity |]. split; [apply ex_store_agrees |].
  exact (generate_heatmap_rerun ex_store 0%nat 1%nat ex_regions ex_frame "exact"
           ex_eve ex_day ex_day eq_refl eq_refl ex_frame_dated (ex_store_agrees _ _ _ _)).
Defined.

Lemma generate_heatmap_unused_dates_witness :
  "exact" <> "range"
  /\ ex_store_day !! 1%nat = Some (DF ex_frame)
  /\ cache_agrees ex_store_day ex_frame "exact" ex_eve ex_morrow ex_day
  /\ cache_agrees ex_store_day ex_frame "exact" ex_day ex_day ex_day
  /\ exists r s1 s2,
      generate_heatmap "exact" ex_eve ex_morrow ex_day 0%nat 1%nat ex_store_day = Ok (r, s1)
      /\ generate_heatmap "exact" ex_day ex_day ex_day 0%nat 1%nat ex_store_day = Ok (r, s2).
Proof.
  assert (H : "exact" <> "range") by discriminate.
  split; [exact H |]. split; [reflexivity |]. split; [apply ex_store_day_agrees |].
  split; [apply ex_store_day_agrees |].
  exact (proj2 (generate_heatmap_unused_dates ex_store_day 0%nat 1%nat ex_regions ex_frame
                  "exact" ex_eve ex_morrow ex_day ex_day ex_day ex_day H
                  eq_refl eq_refl ex_frame_dated
                  (ex_store_day_agrees _ _ _ _) (ex_store_day_agrees _ _ _ _)
                  (ex_store_day_agrees _ _ _ _) (ex_store_day_agrees _ _ _ _))).
Defined.

Lemma generate_heatmap_filtered_copy_witness :
  ex_plain_store !! 0%nat = Some (GDF ex_regions)
  /\ ex_plain_store_day !! 2%nat = Some (DF ex_plain_filtered)
  /\ exists r s' d',
      generate_heatmap "range" ex_day ex_morrow ex_day 0%nat 1%nat ex_plain_store
      = Ok (r, s')
      /\ s' !! 2%nat = Some (DF d')
      /\ "brightness" ∈ columns d'.
Proof.
  split; [reflexivity |]. split; [reflexivity |].
  destruct (generate_heatmap_filtered_copy ex_plain_store 0%nat 1%nat ex_regions "range"
              ex_day ex_morrow ex_day 2%nat ex_plain_store_day ex_plain_filtered
              eq_refl ex_plain_filter_day eq_refl)
    as (r & s' & d' & Hrun & Hl & Hguard & _).
  exists r, s', d'. split; [exact Hrun |]. split; [exact Hl |].
  apply Hguard; [compute_done | compute_done | reflexivity].
Defined.

Lemma generate_heatmap_widen_witness :
  cache_agrees ex_store_day ex_frame "range" ex_day ex_day ex_day
  /\ cache_agrees ex_store_day ex_frame "range" ex_eve ex_morrow ex_day
  /\ date_le ex_eve ex_day /\ date_le ex_day ex_morrow
  /\ exists mymap1 table1 s1' mymap2 table2 s2',
      generate_heatmap "range" ex_day ex_day ex_day 0%nat 1%nat ex_store_day
      = Ok ((mymap1, table1), s1')
      /\ generate_heatmap "range" ex_eve ex_morrow ex_day 0%nat 1%nat ex_store_day
         = Ok ((mymap2, table2), s2')
      /\ (total table1 <= total table2)%Z.
Proof.
  assert (H1 : date_le ex_eve ex_day) by compute_done.
  assert (H2 : date_le ex_day ex_morrow) by compute_done.
  split; [apply ex_store_day_agrees |]. split; [apply ex_store_day_agrees |].
  split; [exact H1 |]. split; [exact H2 |].
  destruct (generate_heatmap_widen ex_store_day 0%nat 1%nat ex_regions ex_frame
              ex_day ex_day ex_day ex_eve ex_morrow ex_day
              eq_refl eq_refl ex_frame_dated
              (ex_store_day_agrees _ _ _ _) (ex_store_day_agrees _ _ _ _) H1 H2)
    as (m1 & t1 & s1' & m2 & t2 & s2' & Hr1 & Hr2 & _ & Ht).
  exists m1, t1, s1', m2, t2, s2'. auto.
Defined.
